(** * adbhelper.py: log analysis, device selection and the command runner

    A shallow embedding of the parts of [adbhelper.py] that parse captured
    logcat text ([cmd_analyze_logs] with [RE_LOGCAT_LEVEL] and [RE_FATAL]),
    select a device ([DeviceSelector.pick]), run one-shot commands
    ([AdbRunner.run], [die]) and drive the two capture commands
    ([cmd_record], [cmd_logcat]).

    Python values are modelled as follows.
    - [int] is [Z].
    - A [str] that is matched by a regular expression is a list of Unicode
      code points ([pystr]); the character classes are those of CPython's
      [re] module for [str] patterns.
    - A [dict] is an association list in insertion order, which is the order
      [dict.items()] yields.
    - Console output, logging and process spawning are events of a trace;
      [sys.exit] is the [SystemExit] result of a computation.

    Left out: the file name and the time stamp of the report, read errors of
    the log file, the creation of output directories, and a keyboard
    interrupt anywhere but in the wait of [cmd_logcat] for its process.  The
    timer thread of [cmd_logcat] shows only through the status that
    [proc.wait()] returns. *)

From Stdlib Require Import String Ascii DecimalString.
From Stdlib Require Import List ZArith NArith Lia Bool.
From Stdlib Require Import Sorting.Sorted Sorting.Permutation.
Import ListNotations.

Set Implicit Arguments.

(** ** Python strings as code points *)

Definition char := N.
Definition pystr := list char.

(** The code points of an ASCII literal. *)
Definition codes (s : string) : pystr :=
  map N_of_ascii (list_ascii_of_string s).

Definition char_in (set : pystr) (c : char) : bool :=
  existsb (N.eqb c) set.

(** [\s] for a [str] pattern: the code points for which [str.isspace] holds
    (tab to carriage return, the four separators 0x1C-0x1F, space, NEL, the
    no-break space and the Unicode space separators). *)
Definition is_space (c : char) : bool :=
  ((9 <=? c) && (c <=? 13) || (28 <=? c) && (c <=? 32)
   || (c =? 133) || (c =? 160) || (c =? 5760)
   || (8192 <=? c) && (c <=? 8202)
   || (c =? 8232) || (c =? 8233) || (c =? 8239) || (c =? 8287)
   || (c =? 12288))%N.

(** ** A backtracking matcher for anchored sequences of repeated classes

    [RE_LOGCAT_LEVEL] is a concatenation of character classes, each taken
    once, or repeated greedily with [+] or [*].  [re_match] tries the longest
    repetition first and gives back one character at a time, as the [re]
    engine does, and returns the text consumed by every piece. *)

Inductive quant := Once | Plus | Star.

Record piece := Piece { cls : char -> bool; rep : quant }.

Definition regex := list piece.

Definition captures := list pystr.

(** Add a consumed character to the segment of the first piece. *)
Definition grow (c : char) (r : option captures) : option captures :=
  match r with
  | Some (seg :: rest) => Some ((c :: seg) :: rest)
  | _ => None
  end.

(** Greedy repetition of the class [cl] followed by the continuation [k]. *)
Fixpoint greedy (cl : char -> bool) (k : pystr -> option captures)
  (s : pystr) : option captures :=
  match s with
  | c :: s' =>
      if cl c then
        match greedy cl k s' with
        | Some r => grow c (Some r)
        | None => option_map (cons []) (k s)
        end
      else option_map (cons []) (k s)
  | [] => option_map (cons []) (k s)
  end.

Fixpoint re_match (r : regex) (s : pystr) {struct r} : option captures :=
  match r with
  | [] => Some []
  | p :: r' =>
      match rep p with
      | Once =>
          match s with
          | c :: s' =>
              if cls p c then option_map (cons [c]) (re_match r' s') else None
          | [] => None
          end
      | Plus =>
          match s with
          | c :: s' =>
              if cls p c then grow c (greedy (cls p) (re_match r') s')
              else None
          | [] => None
          end
      | Star => greedy (cls p) (re_match r') s
      end
  end.

(** [RE_LOGCAT_LEVEL = re.compile(r"^\S+ +(?P<level>[VDIWEF])/(?P<tag>[^() ]+)\s*\(")] *)
Definition RE_LOGCAT_LEVEL : regex :=
  [ Piece (fun c => negb (is_space c)) Plus;
    Piece (char_in (codes " ")) Plus;
    Piece (char_in (codes "VDIWEF")) Once;
    Piece (char_in (codes "/")) Once;
    Piece (fun c => negb (char_in (codes "() ") c)) Plus;
    Piece is_space Star;
    Piece (char_in (codes "(")) Once ].

(** The named groups of a match of [RE_LOGCAT_LEVEL]. *)
Definition group_level (m : captures) : pystr := nth 2 m [].
Definition group_tag (m : captures) : pystr := nth 4 m [].

(** ** Case-insensitive search for one of several literals

    [RE_FATAL] is an alternation of literals compiled with [re.IGNORECASE]
    and used with [search]. *)

Definition ascii_lower (c : char) : char :=
  if ((65 <=? c) && (c <=? 90))%N then (c + 32)%N else c.

(** A pattern character [p] (ASCII) matches the text character [c] when they
    agree up to case; for a [str] pattern [i], [s] and [k] also match the four
    letters U+0130, U+0131, U+017F and U+212A. *)
Definition ichar_match (p c : char) : bool :=
  let lo := ascii_lower p in
  ((ascii_lower c =? lo)
   || (lo =? 105) && ((c =? 304) || (c =? 305))
   || (lo =? 115) && (c =? 383)
   || (lo =? 107) && (c =? 8490))%N.

Fixpoint lit_prefix (lit s : pystr) : bool :=
  match lit, s with
  | [], _ => true
  | p :: lit', c :: s' => ichar_match p c && lit_prefix lit' s'
  | _ :: _, [] => false
  end.

Definition alt_prefix (alts : list pystr) (s : pystr) : bool :=
  existsb (fun lit => lit_prefix lit s) alts.

Fixpoint re_search (alts : list pystr) (s : pystr) : bool :=
  alt_prefix alts s ||
  match s with
  | [] => false
  | _ :: s' => re_search alts s'
  end.

(** [RE_FATAL = re.compile(r"FATAL EXCEPTION|ANR in|java\.lang\.", re.IGNORECASE)] *)
Definition RE_FATAL : list pystr :=
  [ codes "FATAL EXCEPTION"; codes "ANR in"; codes "java.lang." ].

(** ** Dictionaries in insertion order *)

Definition pystr_eqb (a b : pystr) : bool :=
  if list_eq_dec N.eq_dec a b then true else false.

Definition dict := list (pystr * Z).

(** [d.get(k, default)] *)
Fixpoint dict_get (k : pystr) (default : Z) (d : dict) : Z :=
  match d with
  | [] => default
  | (k', v) :: d' => if pystr_eqb k' k then v else dict_get k default d'
  end.

(** [d[k] = v]: an existing key keeps its place, a new key goes last. *)
Fixpoint dict_set (k : pystr) (v : Z) (d : dict) : dict :=
  match d with
  | [] => [(k, v)]
  | (k', v') :: d' =>
      if pystr_eqb k' k then (k', v) :: d' else (k', v') :: dict_set k v d'
  end.

Definition keys (d : dict) : list pystr := map fst d.
Definition values (d : dict) : list Z := map snd d.

(** ** [cmd_analyze_logs] *)

Record counters := Counters {
  levels : dict;
  tags : dict;
  fatals : Z;
  lines_total : Z
}.

(** The state before the first line is read. *)
Definition init : counters :=
  {| levels := [ (codes "V", 0%Z); (codes "D", 0%Z); (codes "I", 0%Z);
                 (codes "W", 0%Z); (codes "E", 0%Z); (codes "F", 0%Z) ];
     tags := [];
     fatals := 0;
     lines_total := 0 |}.

(** The body of [for line in f]. *)
Definition step (st : counters) (line : pystr) : counters :=
  let lines_total' := (lines_total st + 1)%Z in
  let '(levels', tags') :=
    match re_match RE_LOGCAT_LEVEL line with
    | Some m =>
        let lvl := group_level m in
        let tag := group_tag m in
        (dict_set lvl (dict_get lvl 0 (levels st) + 1)%Z (levels st),
         dict_set tag (dict_get tag 0 (tags st) + 1)%Z (tags st))
    | None => (levels st, tags st)
    end in
  let fatals' :=
    if re_search RE_FATAL line then (fatals st + 1)%Z else fatals st in
  {| levels := levels'; tags := tags'; fatals := fatals';
     lines_total := lines_total' |}.

Definition scan (lines : list pystr) : counters := fold_left step lines init.

(** [sorted(items, key=lambda kv: kv[1], reverse=True)]: a stable sort by
    descending count, written as an insertion sort that keeps an element in
    front of the later elements of the same count. *)
Fixpoint insert_desc (x : pystr * Z) (l : list (pystr * Z)) :=
  match l with
  | [] => [x]
  | y :: l' =>
      if (snd x <? snd y)%Z then y :: insert_desc x l' else x :: y :: l'
  end.

Fixpoint sorted_desc (l : list (pystr * Z)) : list (pystr * Z) :=
  match l with
  | [] => []
  | x :: l' => insert_desc x (sorted_desc l')
  end.

(** [top_tags = sorted(tags.items(), ...)[:10]] *)
Definition top_tags (tags : dict) : list (pystr * Z) :=
  firstn 10 (sorted_desc tags).

(** The report, without the file name and the time stamp. *)
Record report := Report {
  r_lines : Z;
  r_levels : dict;
  r_fatals_or_anrs : Z;
  r_top10_tags : list (pystr * Z)
}.

Definition analyze (lines : list pystr) : report :=
  let st := scan lines in
  {| r_lines := lines_total st;
     r_levels := levels st;
     r_fatals_or_anrs := fatals st;
     r_top10_tags := top_tags (tags st) |}.

(** The lines a text-mode file yields: [\r\n] and [\r] are read as [\n],
    and every line but possibly the last ends with [\n]. *)
Fixpoint file_lines_from (cur : pystr) (text : pystr) : list pystr :=
  match text with
  | [] => match cur with [] => [] | _ => [rev cur] end
  | c :: text' =>
      if (c =? 10)%N then rev (10%N :: cur) :: file_lines_from [] text'
      else if (c =? 13)%N then
        match text' with
        | c' :: text'' =>
            if (c' =? 10)%N then rev (10%N :: cur) :: file_lines_from [] text''
            else rev (10%N :: cur) :: file_lines_from [] text'
        | [] => [rev (10%N :: cur)]
        end
      else file_lines_from (c :: cur) text'
  end.

Definition file_lines (text : pystr) : list pystr := file_lines_from [] text.

Definition analyze_text (text : pystr) : report := analyze (file_lines text).

(** ** Notions used to state the properties of the analysis *)

(** What a piece may consume. *)
Definition seg_ok (p : piece) (seg : pystr) : Prop :=
  Forall (fun c => cls p c = true) seg /\
  match rep p with
  | Once => length seg = 1%nat
  | Plus => (1 <= length seg)%nat
  | Star => True
  end.

(** A line has the shape of [RE_LOGCAT_LEVEL]: a non-empty field without
    white space, at least one space, a level letter, a slash, a non-empty tag
    free of parentheses and spaces, optional white space and an opening
    parenthesis. *)
Definition logcat_shape (line : pystr) : Prop :=
  exists field spaces lvl tag ws rest,
    line = field ++ spaces ++ [lvl] ++ codes "/" ++ tag ++ ws ++ codes "(" ++ rest
    /\ field <> [] /\ Forall (fun c => is_space c = false) field
    /\ spaces <> [] /\ Forall (fun c => c = 32%N) spaces
    /\ In lvl (codes "VDIWEF")
    /\ tag <> []
    /\ Forall (fun c => ~ In c (codes "() ")) tag
    /\ Forall (fun c => is_space c = true) ws.

Definition zsum (l : list Z) : Z := fold_right Z.add 0%Z l.

(** The line matches the record pattern. *)
Definition matched (line : pystr) : bool :=
  match re_match RE_LOGCAT_LEVEL line with Some _ => true | None => false end.

(** The level and the tag the pattern finds in a line. *)
Definition level_of (line : pystr) : option pystr :=
  option_map group_level (re_match RE_LOGCAT_LEVEL line).

Definition tag_of (line : pystr) : option pystr :=
  option_map group_tag (re_match RE_LOGCAT_LEVEL line).

Definition has_level (lvl : pystr) (line : pystr) : bool :=
  match level_of line with Some l => pystr_eqb l lvl | None => false end.

Definition count (f : pystr -> bool) (lines : list pystr) : Z :=
  Z.of_nat (length (filter f lines)).

Definition b2z (b : bool) : Z := if b then 1%Z else 0%Z.

Definition level_keys : list pystr :=
  [codes "V"; codes "D"; codes "I"; codes "W"; codes "E"; codes "F"].

Definition has_tag (tag : pystr) (line : pystr) : bool :=
  match tag_of line with Some t => pystr_eqb t tag | None => false end.

(** The fatal markers, as the specification names them. *)
Definition FATAL_MARKERS : list pystr :=
  [ codes "FATAL EXCEPTION"; codes "ANR in"; codes "java.lang." ].

(** [line] contains [marker] somewhere, letter case ignored. *)
Definition contains_ci (marker line : pystr) : Prop :=
  exists pre mid post,
    line = pre ++ mid ++ post /\
    Forall2 (fun p c => ichar_match p c = true) marker mid.

Definition has_fatal_marker (line : pystr) : Prop :=
  exists marker, In marker FATAL_MARKERS /\ contains_ci marker line.

(** The level mapping with a given count for [I] and zero elsewhere. *)
Definition levels_with_I (n : Z) : dict :=
  [ (codes "V", 0%Z); (codes "D", 0%Z); (codes "I", n);
    (codes "W", 0%Z); (codes "E", 0%Z); (codes "F", 0%Z) ].







(** [a] stands somewhere in front of [b] in [l]. *)
Definition before {A : Type} (l : list A) (a b : A) : Prop :=
  exists l1 l2 l3, l = l1 ++ a :: l2 ++ b :: l3.




(** * The command line side: effects, the runner and the commands

    Strings of this part (serials, arguments, messages) are never inspected
    character by character; they are kept as the UTF-8 text of the source. *)

Open Scope string_scope.

(** The line feed of Python's ["\n"]. *)
Definition nl : string := String (ascii_of_nat 10) EmptyString.

(** [str(n)] for an [int]. *)
Definition str_of_int (n : Z) : string := NilZero.string_of_int (Z.to_int n).

(** [sep.join(parts)] *)
Definition join (sep : string) (parts : list string) : string :=
  String.concat sep parts.

(** [x or default] for an optional [int]: [None] and [0] are both falsy. *)
Definition int_or (x : option Z) (default : Z) : Z :=
  match x with
  | Some v => if (v =? 0)%Z then default else v
  | None => default
  end.

(** Truth value of an optional [str]: [None] and the empty string are falsy. *)
Definition truthy (x : option string) : bool :=
  match x with
  | Some s => negb (String.eqb s "")
  | None => false
  end.

(** [a or b] for two strings. *)
Definition str_or (a b : string) : string :=
  if String.eqb a "" then b else a.

(** What a command does to the outside world, in order. *)
Inductive event :=
| LogDebug (msg : string)
| LogWarning (msg : string)
| LogError (msg : string)
| PrintOut (msg : string)
| PrintErr (msg : string)
| SubprocessRun (cmd : list string) (timeout : Z)
| OpenFile (path : string)
| Popen (cmd : list string)
| StartTimer (seconds : Z).

(** A computation either returns a value or leaves through [sys.exit];
    [SystemExit] is no [Exception], so no [except Exception] of the source
    catches it. *)
Inductive result (A : Type) :=
| Return (a : A)
| SystemExit (code : Z).

Arguments Return {A} a.
Arguments SystemExit {A} code.

Definition prog (A : Type) : Type := (list event * result A)%type.

Definition ret {A} (a : A) : prog A := ([], Return a).

Definition bind {A B} (m : prog A) (k : A -> prog B) : prog B :=
  match snd m with
  | Return a => ((fst m ++ fst (k a))%list, snd (k a))
  | SystemExit code => (fst m, SystemExit code)
  end.

Definition emit (e : event) : prog unit := ([e], Return tt).

Notation "x <- m ;; k" := (bind m (fun x => k))
  (at level 61, m at next level, right associativity).
Notation "' pat <- m ;; k" :=
  (bind m (fun x => match x with pat => k end))
  (at level 61, pat pattern, m at next level, right associativity).
Notation "m ;; k" := (bind m (fun _ => k))
  (at level 61, right associativity).

(** [die(code, msg)]: log the message, print it to standard error, exit. *)
Definition die {A} (code : Z) (msg : string) : prog A :=
  ([LogError msg; PrintErr ("Ошибка: " ++ msg)], SystemExit code).

(** The exit status [main] hands to [sys.exit]: the value a command returns,
    or the code of a [SystemExit] raised by [die]. *)
Definition exit_status (r : result Z) : Z :=
  match r with
  | Return rc => rc
  | SystemExit code => code
  end.

(** Functions of the Python library that are left abstract. *)
Record pylib := PyLib {
  strip : string -> string;
  called_process_error_str : list string -> Z -> string
}.

(** ** [AdbRunner] *)

Record AdbRunner := {
  _adb_path : string;
  dry_run : bool;
  timeout : Z
}.

Definition _build (self : AdbRunner) (args : list string)
  (serial : option string) : list string :=
  ([_adb_path self]
   ++ (match serial with
       | Some s => if truthy serial then ["-s"; s] else []
       | None => []
       end)
   ++ args)%list.

(** How [subprocess.run] ends. *)
Inductive run_outcome :=
| Completed (returncode : Z) (stdout stderr : string)
| TimeoutExpired
| FileNotFoundError
| OtherException (text : string).

(** The outside world of one-shot commands: what the process started with a
    command line and a timeout does. *)
Definition os := list string -> Z -> run_outcome.

(** [AdbRunner.run] *)
Definition run (py : pylib) (w : os) (self : AdbRunner) (args : list string)
  (serial : option string) (capture : bool) (timeout_arg : option Z)
  (check : bool) : prog (Z * string * string) :=
  let cmd := _build self args serial in
  emit (LogDebug ("ADB CMD: " ++ join " " cmd)) ;;
  if dry_run self then
    emit (PrintOut ("[DRY-RUN] " ++ join " " cmd)) ;;
    ret (0%Z, "", "")
  else
    let t := int_or timeout_arg (timeout self) in
    emit (SubprocessRun cmd t) ;;
    match w cmd t with
    | Completed rc stdout stderr =>
        let out := if capture then stdout else "" in
        let err := if capture then stderr else "" in
        if check && negb (rc =? 0)%Z then
          die 1 ("Не удалось выполнить команду: " ++ join " " cmd ++ nl
                 ++ called_process_error_str py cmd rc)
        else ret (rc, out, err)
    | TimeoutExpired =>
        die 5 ("Команда превысила таймаут " ++ str_of_int t ++ " с: "
               ++ join " " cmd)
    | FileNotFoundError =>
        die 2 "adb не найден (FileNotFoundError). Проверьте установку и PATH."
    | OtherException e =>
        die 1 ("Не удалось выполнить команду: " ++ join " " cmd ++ nl ++ e)
    end.

(** [run] with the defaults [capture=True, timeout=None, check=False]. *)
Definition run_default (py : pylib) (w : os) (self : AdbRunner)
  (args : list string) (serial : option string) : prog (Z * string * string) :=
  run py w self args serial true None false.

(** ** [DeviceSelector] *)

Record DeviceInfo := {
  serial : string;
  state : string;
  model : string;
  transport : option string;
  android : option string;
  sdk : option string
}.

Definition is_online (d : DeviceInfo) : bool := String.eqb (state d) "device".

(** One line of the list of candidates. *)
Definition candidate_line (d : DeviceInfo) : string :=
  "- " ++ serial d ++ " (" ++ str_or (model d) "n/a" ++ ")".

Definition several_devices_msg (online : list DeviceInfo) : string :=
  "Несколько подключённых устройств. Укажите --serial. Список:" ++ nl
  ++ join nl (map candidate_line online).

Definition no_device_msg : string :=
  "Нет подключённых устройств (state 'device').".

(** [DeviceSelector.pick]; [list_devices] is the computation that asks the
    device bridge for its devices. *)
Definition pick (list_devices : prog (list DeviceInfo))
  (preferred_serial : option string) : prog string :=
  devs <- list_devices ;;
  let online := filter is_online devs in
  match preferred_serial with
  | Some p =>
      if truthy preferred_serial then
        match find (fun d => String.eqb (serial d) p) online with
        | Some d => ret (serial d)
        | None =>
            die 3 ("Устройство с serial " ++ p
                   ++ " не найдено или не в состоянии 'device'.")
        end
      else
        match online with
        | [] => die 3 no_device_msg
        | d :: _ =>
            if (1 <? length online)%nat then die 3 (several_devices_msg online)
            else ret (serial d)
        end
  | None =>
      match online with
      | [] => die 3 no_device_msg
      | d :: _ =>
          if (1 <? length online)%nat then die 3 (several_devices_msg online)
          else ret (serial d)
      end
  end.

(** ** [cmd_record] *)

(** [min(max(args.duration or 30, 1), 180)] *)
Definition record_duration (duration_arg : option Z) : Z :=
  Z.min (Z.max (int_or duration_arg 30) 1) 180.

Definition screenrecord_args (duration : Z) (bitrate remote_tmp : string)
  : list string :=
  ["shell"; "screenrecord"; "--time-limit=" ++ str_of_int duration;
   "--bit-rate=" ++ bitrate; remote_tmp].

(** [cmd_record]; the bit rate, the remote file name and the output path are
    computed from floating point numbers and the clock and are taken as
    given. *)
Definition cmd_record (py : pylib) (w : os) (adb : AdbRunner)
  (pick_device : prog string) (duration_arg : option Z)
  (bitrate remote_tmp out_path : string) : prog Z :=
  serial <- pick_device ;;
  let duration := record_duration duration_arg in
  emit (PrintOut ("Запись экрана " ++ str_of_int duration ++ " c...")) ;;
  '(rc, out, err) <-
    run py w adb (screenrecord_args duration bitrate remote_tmp)
        (Some serial) true (Some (duration + 5)%Z) false ;;
  if negb (rc =? 0)%Z then
    die 1 ("screenrecord вернул " ++ str_of_int rc ++ ": "
           ++ str_or (strip py err) (strip py out))
  else
    '(rc, out, err) <-
      run_default py w adb ["pull"; remote_tmp; out_path] (Some serial) ;;
    if negb (rc =? 0)%Z then
      die 1 ("Не удалось скачать видео: "
             ++ str_or (strip py err) (strip py out))
    else
      run_default py w adb ["shell"; "rm"; "-f"; remote_tmp] (Some serial) ;;
      emit (PrintOut ("Видео сохранено: " ++ out_path)) ;;
      ret 0%Z.

(** ** [cmd_logcat] *)

(** How [proc.wait()] ends: with the status of the process, be it that the
    process ended by itself or that the capture timer interrupted it, or with
    the [KeyboardInterrupt] of Ctrl-C. *)
Inductive wait_outcome :=
| Exited (rc : Z)
| WaitInterrupted.

(** How [proc.stderr.read()] ends: the pipe is a text stream with strict
    decoding, so reading it gives what the process wrote to standard error,
    or raises when the bytes are no text of the encoding. *)
Inductive read_outcome :=
| ReadText (text : string)
| ReadError (text : string).

(** The outside world of one capture: whether the output file opens and the
    process starts (or the text of the exception), how [proc.wait()] ends,
    and how reading the standard error of the process ends. *)
Record capture_world := {
  open_error : option string;
  popen_error : option string;
  wait_result : wait_outcome;
  stderr_read : read_outcome
}.

(** A [KeyboardInterrupt] is no [Exception]: like [SystemExit] it passes
    every [except Exception] of a command and reaches [main], which prints
    this line to standard error and returns 1. *)
Definition keyboard_interrupt {A} : prog A :=
  ([PrintErr (nl ++ "Прервано пользователем (Ctrl+C).")], SystemExit 1).

(** [AdbRunner.popen] outside dry-run mode. *)
Definition popen (cw : capture_world) (self : AdbRunner) (args : list string)
  (serial : option string) : prog unit :=
  let cmd := _build self args serial in
  emit (LogDebug ("ADB POPEN: " ++ join " " cmd)) ;;
  match popen_error cw with
  | None => emit (Popen cmd)
  | Some e =>
      die 1 ("Не удалось запустить процесс: " ++ join " " cmd ++ nl ++ e)
  end.

(** The capture itself: the [try] block of [cmd_logcat]. *)
Definition logcat_capture (py : pylib) (cw : capture_world) (adb : AdbRunner)
  (cmd : list string) (serial : string) (duration_arg : option Z)
  (out_path : string) : prog Z :=
  let duration := int_or duration_arg 0 in
  match open_error cw with
  | Some e => die 1 ("Ошибка logcat: " ++ e)
  | None =>
      emit (OpenFile out_path) ;;
      popen cw adb cmd (Some serial) ;;
      (if (0 <? duration)%Z then emit (StartTimer duration) else ret tt) ;;
      match wait_result cw with
      | WaitInterrupted => keyboard_interrupt
      | Exited rc =>
          (if negb (rc =? 0)%Z then
             match stderr_read cw with
             | ReadText err =>
                 emit (LogWarning ("logcat завершился с кодом "
                                   ++ str_of_int rc ++ ": " ++ strip py err))
             | ReadError e => die 1 ("Ошибка logcat: " ++ e)
             end
           else ret tt) ;;
          emit (PrintOut ("Логи сохранены: " ++ out_path)) ;;
          ret 0%Z
      end
  end.

(** [cmd_logcat]; [since] is the result of [parse_since], which reads the
    clock. *)
Definition cmd_logcat (py : pylib) (w : os) (cw : capture_world)
  (adb : AdbRunner) (pick_device : prog string) (clear : bool)
  (since : option string) (filter_arg : list string)
  (duration_arg : option Z) (out_path : string) : prog Z :=
  serial <- pick_device ;;
  (if clear then run_default py w adb ["logcat"; "-c"] (Some serial) ;; ret tt
   else ret tt) ;;
  let cmd :=
    (["logcat"]
     ++ (match since with
         | Some s => if truthy since then ["-T"; s] else []
         | None => []
         end)
     ++ filter_arg)%list in
  if dry_run adb then
    emit (PrintOut ("[DRY-RUN] "
                    ++ join " " ([_adb_path adb; "-s"; serial] ++ cmd)%list)) ;;
    emit (PrintOut ("[DRY-RUN] Логи писались бы в " ++ out_path)) ;;
    ret 0%Z
  else
    logcat_capture py cw adb cmd serial duration_arg out_path.

(** ** Notions used to state the properties of the commands *)

(** [part] occurs in [whole]. *)
Definition occurs_in (part whole : string) : Prop :=
  exists pre post, whole = pre ++ part ++ post.

Definition is_print_err (e : event) : bool :=
  match e with PrintErr _ => true | _ => false end.

Definition is_spawn (e : event) : bool :=
  match e with SubprocessRun _ _ | Popen _ => true | _ => false end.


(** The requested duration clamped into [1, 180], 30 when there is none,
    as the specification of [cmd_record] words it. *)
Definition clamped_request (duration_arg : option Z) : Z :=
  match duration_arg with
  | Some d => Z.min (Z.max d 1) 180
  | None => 30%Z
  end.

(** Sample devices and sample capture worlds: a process that the duration
    timer ended with SIGINT, and one that failed and left bytes on standard
    error that are no text. *)
Definition dev_pixel : DeviceInfo :=
  {| serial := "emulator-5554"; state := "device"; model := "Pixel";
     transport := None; android := None; sdk := None |}.

Definition dev_unnamed : DeviceInfo :=
  {| serial := "0A1B2C"; state := "device"; model := "";
     transport := None; android := None; sdk := None |}.

Definition dev_offline : DeviceInfo :=
  {| serial := "ZZ"; state := "offline"; model := "";
     transport := None; android := None; sdk := None |}.

Definition world_interrupted : capture_world :=
  {| open_error := None; popen_error := None; wait_result := Exited (-2);
     stderr_read := ReadText "" |}.


Close Scope string_scope.

(** * [sanitize_input_text] *)

(** The first code point of a literal. *)
Definition chr1 (s : string) : char := hd 0%N (codes s).

(** The [mapping] dictionary of [sanitize_input_text]: a space becomes [%s],
    every other listed character gets a backslash in front. *)
Definition SANITIZE_MAPPING : list (char * pystr) :=
  [ (chr1 " ", codes "%s");
    (chr1 "&", codes "\&");
    (chr1 "<", codes "\<");
    (chr1 ">", codes "\>");
    (chr1 "(", codes "\(");
    (chr1 ")", codes "\)");
    (chr1 ";", codes "\;");
    (chr1 "|", codes "\|");
    (chr1 "*", codes "\*");
    (chr1 "~", codes "\~");
    (chr1 "'", codes "\'");
    (34%N, [92%N; 34%N]);
    (chr1 "#", codes "\#");
    (chr1 "%", codes "\%");
    (chr1 "!", codes "\!");
    (chr1 "?", codes "\?");
    (chr1 ":", codes "\:");
    (chr1 "/", codes "\/");
    (chr1 "\", codes "\\") ].

(** [mapping.get(ch, ch)] *)
Fixpoint mapping_get (ch : char) (m : list (char * pystr)) : pystr :=
  match m with
  | [] => [ch]
  | (k, v) :: m' => if (k =? ch)%N then v else mapping_get ch m'
  end.

(** ["".join(mapping.get(ch, ch) for ch in text)] *)
Definition sanitize_input_text (text : pystr) : pystr :=
  flat_map (fun ch => mapping_get ch SANITIZE_MAPPING) text.

(** The characters that [sanitize_input_text] rewrites. *)
Definition is_special (ch : char) : bool :=
  existsb (fun kv => (fst kv =? ch)%N) SANITIZE_MAPPING.

(** Reading a sanitized text back: a backslash stands for the character
    behind it, [%s] for a space. *)
Fixpoint unsanitize (s : pystr) : pystr :=
  match s with
  | [] => []
  | c :: s' =>
      match s' with
      | x :: s'' =>
          if (c =? 92)%N then x :: unsanitize s''
          else if ((c =? 37) && (x =? 115))%N then 32%N :: unsanitize s''
          else c :: unsanitize s'
      | [] => [c]
      end
  end.

(** * More commands *)

Open Scope string_scope.

(** The text of an optional argument, empty when it is absent. *)
Definition opt_text (x : option string) : string :=
  match x with Some s => s | None => "" end.

(** [part in s] for a single ASCII character. *)
Fixpoint contains_char (c : ascii) (s : string) : bool :=
  match s with
  | EmptyString => false
  | String x s' => Ascii.eqb x c || contains_char c s'
  end.

(** [s.split(c, 1)] for a text that contains [c]: the text before the first
    [c] and the text behind it. *)
Fixpoint split_first (c : ascii) (s : string) : string * string :=
  match s with
  | EmptyString => ("", "")
  | String x s' =>
      if Ascii.eqb x c then ("", s')
      else let '(k, v) := split_first c s' in (String x k, v)
  end.

(** [s.startswith(c)] for a single character. *)
Definition starts_with_char (c : ascii) (s : string) : bool :=
  match s with
  | String x _ => Ascii.eqb x c
  | EmptyString => false
  end.

Definition ch_eq : ascii := "="%char.
Definition ch_slash : ascii := "/"%char.
Definition ch_dot : ascii := "."%char.

(** ** [cmd_uninstall], [cmd_pull], [cmd_push] *)

Definition cmd_uninstall (py : pylib) (w : os) (adb : AdbRunner)
  (pick_device : prog string) (package : option string) (keep_data : bool)
  : prog Z :=
  (if truthy package then ret tt else die 4 "--package обязателен.") ;;
  serial <- pick_device ;;
  let flags :=
    (["uninstall"] ++ (if keep_data then ["-k"] else [])
     ++ [opt_text package])%list in
  '(rc, out, err) <- run_default py w adb flags (Some serial) ;;
  emit (PrintOut (str_or (strip py out) (strip py err))) ;;
  ret rc.

Definition cmd_pull (py : pylib) (w : os) (adb : AdbRunner)
  (pick_device : prog string) (remote out_arg : option string) : prog Z :=
  serial <- pick_device ;;
  (if truthy remote then ret tt else die 4 "--remote обязателен.") ;;
  let local := if truthy out_arg then opt_text out_arg else "." in
  '(rc, out, err) <-
    run_default py w adb ["pull"; opt_text remote; local] (Some serial) ;;
  emit (PrintOut (str_or (strip py out) (strip py err))) ;;
  ret rc.

Definition cmd_push (py : pylib) (w : os) (adb : AdbRunner)
  (pick_device : prog string) (src remote : option string) : prog Z :=
  serial <- pick_device ;;
  (if truthy src && truthy remote then ret tt
   else die 4 "--src и --remote обязательны.") ;;
  '(rc, out, err) <-
    run_default py w adb ["push"; opt_text src; opt_text remote]
                (Some serial) ;;
  emit (PrintOut (str_or (strip py out) (strip py err))) ;;
  ret rc.

(** ** [cmd_app] *)

Record app_args := {
  app_package : option string;
  app_activity : option string;
  app_action : option string;
  app_data : option string;
  app_extra : list string;
  app_perms : list string
}.

(** The [--es key value] arguments of the extras that contain [=]. *)
Fixpoint extras_args (extra : list string) : list string :=
  match extra with
  | [] => []
  | ex :: extra' =>
      if contains_char ch_eq ex then
        let '(k, v) := split_first ch_eq ex in
        ("--es" :: k :: v :: extras_args extra')%list
      else extras_args extra'
  end.

(** The component given with [-n]. *)
Definition component (package activity : string) : string :=
  if negb (String.eqb activity "") then
    if starts_with_char ch_dot activity then package ++ "/" ++ activity
    else if negb (contains_char ch_slash activity)
         then package ++ "/" ++ activity
         else activity
  else package.

(** The argument list [am] of the [start] subcommand. *)
Definition am_start_args (a : app_args) : list string :=
  (["shell"; "am"; "start"; "-W"]
   ++ (if truthy (app_action a) then ["-a"; opt_text (app_action a)] else [])
   ++ (if truthy (app_data a) then ["-d"; opt_text (app_data a)] else [])
   ++ extras_args (app_extra a)
   ++ (if truthy (app_package a)
       then ["-n"; component (opt_text (app_package a))
                             (opt_text (app_activity a))]
       else []))%list.

(** The loop of the [grant-perms] subcommand, entered with [rc_total]. *)
Fixpoint grant_loop (py : pylib) (w : os) (adb : AdbRunner)
  (package serial : string) (perms : list string) (rc_total : Z) : prog Z :=
  match perms with
  | [] => ret rc_total
  | p :: perms' =>
      '(rc, out, err) <-
        run_default py w adb ["shell"; "pm"; "grant"; package; p]
                    (Some serial) ;;
      if negb (rc =? 0)%Z then
        emit (PrintOut (p ++ ": FAIL - "
                        ++ str_or (strip py err) (strip py out))) ;;
        grant_loop py w adb package serial perms' rc
      else
        emit (PrintOut (p ++ ": OK")) ;;
        grant_loop py w adb package serial perms' rc_total
  end.

(** [cmd_app]; the [info] subcommand, which parses and prints a package
    dump, is taken as a given computation that gets the serial. *)
Definition cmd_app (py : pylib) (w : os) (adb : AdbRunner)
  (pick_device : prog string) (sub : string) (a : app_args)
  (info : string -> prog Z) : prog Z :=
  serial <- pick_device ;;
  if String.eqb sub "start" then
    (if negb (truthy (app_package a)) && negb (truthy (app_activity a))
        && negb (truthy (app_action a))
     then die 4 "Нужно указать хотя бы --package и --activity, либо --action."
     else ret tt) ;;
    '(rc, out, err) <- run_default py w adb (am_start_args a) (Some serial) ;;
    emit (PrintOut (str_or (strip py out) (strip py err))) ;;
    ret rc
  else if String.eqb sub "stop" then
    (if truthy (app_package a) then ret tt
     else die 4 "--package обязателен.") ;;
    '(rc, out, err) <-
      run_default py w adb
        ["shell"; "am"; "force-stop"; opt_text (app_package a)]
        (Some serial) ;;
    emit (PrintOut (if (rc =? 0)%Z then "OK"
                    else str_or (strip py err) (strip py out))) ;;
    ret rc
  else if String.eqb sub "clear" then
    (if truthy (app_package a) then ret tt
     else die 4 "--package обязателен.") ;;
    '(rc, out, err) <-
      run_default py w adb ["shell"; "pm"; "clear"; opt_text (app_package a)]
                  (Some serial) ;;
    emit (PrintOut (str_or (strip py out) (strip py err))) ;;
    ret rc
  else if String.eqb sub "grant-perms" then
    (if truthy (app_package a)
        && negb (match app_perms a with [] => true | _ => false end)
     then ret tt
     else die 4 "--package и --perms обязательны.") ;;
    grant_loop py w adb (opt_text (app_package a)) serial (app_perms a) 0
  else if String.eqb sub "info" then
    (if truthy (app_package a) then ret tt
     else die 4 "--package обязателен.") ;;
    info serial
  else
    die 4 ("Неизвестная подкоманда app: " ++ sub).

(** ** [cmd_tcpip] *)



(** ** [cmd_screenshot] *)

(** How the capture process of a screenshot ends: it does not start, it
    completes with a status, its output and its decoded error output, the
    wait for it times out, or another exception is raised. *)
Inductive shot_outcome :=
| SpawnFailed (text : string)
| Communicated (returncode : Z) (out : string) (err_text : string)
| CommunicateTimeout
| CommunicateError (text : string).

(** What becomes of the output file: [f.write(out)], closing the file and
    [out_path.stat()] go through and the file then has the size [st_size], or
    one of them raises. *)
Inductive save_outcome :=
| Saved (st_size : Z)
| SaveError (text : string).

(** The outside world of one screenshot: whether the output file opens, how
    the capture process ends, and what becomes of the output file once the
    picture is written to it. *)
Record screenshot_world := {
  shot_open_error : option string;
  shot_result : shot_outcome;
  shot_saved : save_outcome
}.

(** [cmd_screenshot]; the output path is computed from the clock and taken
    as given. *)
Definition cmd_screenshot (adb : AdbRunner) (sw : screenshot_world)
  (pick_device : prog string) (out_path : string) : prog Z :=
  serial <- pick_device ;;
  if dry_run adb then
    emit (PrintOut ("[DRY-RUN] Сохраню скриншот в " ++ out_path)) ;;
    ret 0%Z
  else
    let cmd := [_adb_path adb; "-s"; serial; "exec-out"; "screencap"; "-p"] in
    emit (LogDebug ("ADB SCREENSHOT: " ++ join " " cmd)) ;;
    match shot_open_error sw with
    | Some e => die 1 ("Не удалось снять скриншот: " ++ e)
    | None =>
        emit (OpenFile out_path) ;;
        match shot_result sw with
        | SpawnFailed e => die 1 ("Не удалось снять скриншот: " ++ e)
        | Communicated rc out err =>
            emit (Popen cmd) ;;
            if negb (rc =? 0)%Z then
              die 1 ("screencap вернул " ++ str_of_int rc ++ ": " ++ err)
            else
              match shot_saved sw with
              | SaveError e => die 1 ("Не удалось снять скриншот: " ++ e)
              | Saved st_size =>
                  if (st_size <=? 0)%Z then
                    die 1 "Получен пустой скриншот."
                  else
                    emit (PrintOut ("Скриншот сохранён: " ++ out_path)) ;;
                    ret 0%Z
              end
        | CommunicateTimeout =>
            emit (Popen cmd) ;;
            die 5 "Таймаут получения скриншота."
        | CommunicateError e =>
            emit (Popen cmd) ;;
            die 1 ("Не удалось снять скриншот: " ++ e)
        end
    end.

(** The status the [grant-perms] loop ends with when the grant of [p] ends
    with [status p]: the status of the last grant that failed, or the one the
    loop was entered with. *)
Definition last_failure (status : string -> Z) (perms : list string)
  (rc_total : Z) : Z :=
  fold_left (fun acc p => if (status p =? 0)%Z then acc else status p)
            perms rc_total.

(** The command line of one grant. *)
Definition grant_cmd (adb : AdbRunner) (package serial p : string)
  : list string :=
  _build adb ["shell"; "pm"; "grant"; package; p] (Some serial).

Close Scope string_scope.

(** * [print_table] *)

(** A row of a table: a dictionary from column names to texts. *)
Definition row := list (pystr * pystr).

(** [r.get(h, "")] *)
Fixpoint row_get (h : pystr) (r : row) : pystr :=
  match r with
  | [] => []
  | (k, v) :: r' => if pystr_eqb k h then v else row_get h r'
  end.

(** [s.ljust(width)]: spaces are added on the right, nothing is cut. *)
Definition ljust (s : pystr) (width : nat) : pystr :=
  s ++ repeat 32%N (width - length s).

(** [sep.join(parts)] *)
Fixpoint pyjoin (sep : pystr) (parts : list pystr) : pystr :=
  match parts with
  | [] => []
  | [x] => x
  | x :: parts' => x ++ sep ++ pyjoin sep parts'
  end.

(** [max(len(h), *(len(str(r.get(h, ""))) for r in rows))] *)
Definition column_width (rows : list row) (h : pystr) : nat :=
  fold_left (fun w r => Nat.max w (length (row_get h r))) rows (length h).

(** The text [(пусто)]. *)
Definition EMPTY_TABLE : pystr := [40; 1087; 1091; 1089; 1090; 1086; 41]%N.

(** [print_table]: the lines it prints, in order. *)
Definition print_table (rows : list row) : list pystr :=
  match rows with
  | [] => [EMPTY_TABLE]
  | first :: _ =>
      let headers := map fst first in
      pyjoin (codes " | ")
             (map (fun h => ljust h (column_width rows h)) headers)
      :: pyjoin (codes "-+-")
                (map (fun h => repeat 45%N (column_width rows h)) headers)
      :: map (fun r =>
                pyjoin (codes " | ")
                       (map (fun h => ljust (row_get h r) (column_width rows h))
                            headers))
             rows
  end.

(** The width of a table with the given column widths: the columns and a
    separator of three characters between two of them. *)
Definition table_width (widths : list nat) : nat :=
  list_sum widths + 3 * (length widths - 1).

(** The part of [s] that starts at [start] and has [len] characters. *)
Definition slice (start len : nat) (s : pystr) : pystr :=
  firstn len (skipn start s).

(** Where column [i] starts in a line of a table with the given column
    widths. *)
Definition column_offset (widths : list nat) (i : nat) : nat :=
  list_sum (firstn i widths) + 3 * i.

(** A table of two devices; the second row has no state. *)
Definition table_sample : list row :=
  [ [ (codes "serial", codes "emulator-5554"); (codes "state", codes "device") ];
    [ (codes "serial", codes "ZZ") ] ].

(** * Regular expressions with groups, and the device list *)

(** ** A backtracking matcher with capture groups

    [RE_DEVICES_LINE] needs alternatives, optional groups and a lazy
    repetition.  [rx_match] tries the alternatives in the order of the [re]
    engine and hands the rest of the text and the groups captured so far to
    its continuation; a failure of the continuation makes it try the next
    alternative. *)

Inductive rx :=
| RLit (s : pystr)                                  (* literal text *)
| RRep (c : char -> bool) (at_least_one greedy : bool) (* class repeated *)
| RSeq (a b : rx)
| RAlt (a b : rx)
| ROpt (a : rx)                                     (* [(...)?] *)
| RGroup (name : nat) (a : rx)
| REnd.                                             (* [$] *)

(** The groups captured so far, the latest first. *)
Definition groups := list (nat * pystr).

Fixpoint group (name : nat) (gs : groups) : option pystr :=
  match gs with
  | [] => None
  | (n, s) :: gs' => if Nat.eqb n name then Some s else group name gs'
  end.

(** [s] without the prefix [lit], when it starts with it. *)
Fixpoint drop_prefix (lit s : pystr) : option pystr :=
  match lit, s with
  | [], _ => Some s
  | p :: lit', c :: s' => if (p =? c)%N then drop_prefix lit' s' else None
  | _ :: _, [] => None
  end.

(** Repetition of a class: the greedy one first takes a character when it
    can, the lazy one first tries to go on without. *)
Fixpoint rx_rep (c : char -> bool) (greedy : bool) (s : pystr) (gs : groups)
  (k : pystr -> groups -> option groups) : option groups :=
  match s with
  | x :: s' =>
      if c x then
        if greedy then
          match rx_rep c greedy s' gs k with
          | Some r => Some r
          | None => k s gs
          end
        else
          match k s gs with
          | Some r => Some r
          | None => rx_rep c greedy s' gs k
          end
      else k s gs
  | [] => k s gs
  end.

Fixpoint rx_match (r : rx) (s : pystr) (gs : groups)
  (k : pystr -> groups -> option groups) {struct r} : option groups :=
  match r with
  | RLit lit =>
      match drop_prefix lit s with
      | Some s' => k s' gs
      | None => None
      end
  | RRep c at_least_one greedy =>
      if at_least_one then
        match s with
        | x :: s' => if c x then rx_rep c greedy s' gs k else None
        | [] => None
        end
      else rx_rep c greedy s gs k
  | RSeq a b => rx_match a s gs (fun s' gs' => rx_match b s' gs' k)
  | RAlt a b =>
      match rx_match a s gs k with
      | Some r => Some r
      | None => rx_match b s gs k
      end
  | ROpt a =>
      match rx_match a s gs k with
      | Some r => Some r
      | None => k s gs
      end
  | RGroup name a =>
      rx_match a s gs
        (fun s' gs' => k s' ((name, firstn (length s - length s') s) :: gs'))
  | REnd =>
      match s with
      | [] => k s gs
      | [c] => if (c =? 10)%N then k s gs else None
      | _ => None
      end
  end.

(** [pattern.match(s)]: the groups of the first way to match a prefix. *)
Definition re_match_groups (r : rx) (s : pystr) : option groups :=
  rx_match r s [] (fun _ gs => Some gs).

(** The class of [.]: everything but a line feed. *)
Definition is_dot (c : char) : bool := negb (c =? 10)%N.

Definition not_space (c : char) : bool := negb (is_space c).

(** The numbers of the groups of [RE_DEVICES_LINE]. *)
Definition G_SERIAL : nat := 1.
Definition G_STATE : nat := 2.
Definition G_MODEL : nat := 4.
Definition G_TRANSPORT : nat := 6.

(** [RE_DEVICES_LINE]:
    [^(?P<serial>\S+)\s+(?P<state>device|offline|unauthorized)\s*]
    [(.*model:(?P<model>\S+))?.*?(transport_id:(?P<transport>\d+))?\s*$].
    The class [\d] of decimal digits is that of the Unicode data of the
    interpreter and is taken as given. *)
Definition RE_DEVICES_LINE (is_decimal : char -> bool) : rx :=
  RSeq (RGroup G_SERIAL (RRep not_space true true))
  (RSeq (RRep is_space true true)
  (RSeq (RGroup G_STATE
           (RAlt (RLit (codes "device"))
           (RAlt (RLit (codes "offline")) (RLit (codes "unauthorized")))))
  (RSeq (RRep is_space false true)
  (RSeq (ROpt (RGroup 3
           (RSeq (RRep is_dot false true)
           (RSeq (RLit (codes "model:"))
                 (RGroup G_MODEL (RRep not_space true true))))))
  (RSeq (RRep is_dot false false)
  (RSeq (ROpt (RGroup 5
           (RSeq (RLit (codes "transport_id:"))
                 (RGroup G_TRANSPORT (RRep is_decimal true true)))))
  (RSeq (RRep is_space false true) REnd))))))).

(** ** Text functions of Python *)

(** [s.strip()] *)
Fixpoint lstrip (s : pystr) : pystr :=
  match s with
  | c :: s' => if is_space c then lstrip s' else s
  | [] => []
  end.

Definition py_strip (s : pystr) : pystr := rev (lstrip (rev (lstrip s))).

(** The line boundaries of [str.splitlines]. *)
Definition is_linebreak (c : char) : bool :=
  ((10 <=? c) && (c <=? 13) || (28 <=? c) && (c <=? 30)
   || (c =? 133) || (c =? 8232) || (c =? 8233))%N.

(** [s.splitlines()]: the lines without their ends; a carriage return and a
    line feed behind it are one line end. *)
Fixpoint splitlines_from (cur : pystr) (s : pystr) : list pystr :=
  match s with
  | [] => match cur with [] => [] | _ => [rev cur] end
  | c :: s' =>
      if is_linebreak c then
        if (c =? 13)%N then
          match s' with
          | c' :: s'' =>
              if (c' =? 10)%N then rev cur :: splitlines_from [] s''
              else rev cur :: splitlines_from [] s'
          | [] => [rev cur]
          end
        else rev cur :: splitlines_from [] s'
      else splitlines_from (c :: cur) s'
  end.

Definition splitlines (s : pystr) : list pystr := splitlines_from [] s.

(** [s.lower().startswith(prefix)] for a lower-case ASCII [prefix]: the text
    starts with the prefix up to the case of its ASCII letters. *)
Fixpoint lower_startswith (prefix s : pystr) : bool :=
  match prefix, s with
  | [], _ => true
  | p :: prefix', c :: s' =>
      (ascii_lower c =? p)%N && lower_startswith prefix' s'
  | _ :: _, [] => false
  end.

(** ** The parsed device lines of [list_devices] *)

Record device_line := {
  dl_serial : pystr;
  dl_state : pystr;
  dl_model : pystr;
  dl_transport : option pystr
}.

(** One stripped line: the device it describes, when the pattern matches. *)
Definition parse_device_line (is_decimal : char -> bool) (l : pystr)
  : option device_line :=
  match re_match_groups (RE_DEVICES_LINE is_decimal) l with
  | Some gs =>
      Some {| dl_serial := match group G_SERIAL gs with Some s => s | None => [] end;
              dl_state := match group G_STATE gs with Some s => s | None => [] end;
              dl_model := match group G_MODEL gs with Some s => s | None => [] end;
              dl_transport := group G_TRANSPORT gs |}
  | None => None
  end.

(** The lines of the output that [list_devices] looks at: stripped, not
    empty and not the heading. *)
Definition device_lines (out : pystr) : list pystr :=
  filter (fun l => negb (lower_startswith (codes "list of devices") l))
    (map py_strip
       (filter (fun l => match py_strip l with [] => false | _ => true end)
               (splitlines out))).

(** ** Texts of the command line side as code points

    The strings of the command line side hold UTF-8; [to_text] writes code
    points as UTF-8 and [of_text] reads them back. *)

Definition utf8_char (c : char) : list ascii :=
  (if c <? 128 then [ascii_of_N c]
   else if c <? 2048 then
     [ascii_of_N (192 + c / 64); ascii_of_N (128 + c mod 64)]
   else if c <? 65536 then
     [ascii_of_N (224 + c / 4096); ascii_of_N (128 + (c / 64) mod 64);
      ascii_of_N (128 + c mod 64)]
   else
     [ascii_of_N (240 + c / 262144); ascii_of_N (128 + (c / 4096) mod 64);
      ascii_of_N (128 + (c / 64) mod 64); ascii_of_N (128 + c mod 64)])%N.

Definition to_text (s : pystr) : string :=
  string_of_list_ascii (flat_map utf8_char s).

(** A continuation byte of UTF-8. *)
Definition is_cont (b : N) : bool := ((128 <=? b) && (b <? 192))%N.

(** Reading UTF-8: a byte that starts no well-formed sequence is skipped. *)
Fixpoint utf8_codes (bs : list N) : pystr :=
  match bs with
  | [] => []
  | b0 :: r0 =>
      if (b0 <? 128)%N then b0 :: utf8_codes r0
      else
        match r0 with
        | b1 :: r1 =>
            if ((192 <=? b0) && (b0 <? 224) && is_cont b1)%N then
              ((b0 - 192) * 64 + (b1 - 128))%N :: utf8_codes r1
            else
              match r1 with
              | b2 :: r2 =>
                  if ((224 <=? b0) && (b0 <? 240) && is_cont b1
                      && is_cont b2)%N then
                    ((b0 - 224) * 4096 + (b1 - 128) * 64 + (b2 - 128))%N
                    :: utf8_codes r2
                  else
                    match r2 with
                    | b3 :: r3 =>
                        if ((240 <=? b0) && (b0 <? 248) && is_cont b1
                            && is_cont b2 && is_cont b3)%N then
                          ((b0 - 240) * 262144 + (b1 - 128) * 4096
                           + (b2 - 128) * 64 + (b3 - 128))%N
                          :: utf8_codes r3
                        else utf8_codes r0
                    | [] => utf8_codes r0
                    end
              | [] => utf8_codes r0
              end
        | [] => []
        end
  end.

Definition of_text (s : string) : pystr :=
  utf8_codes (map N_of_ascii (list_ascii_of_string s)).

(** * [DeviceSelector.list_devices] and [cmd_devices] *)

Open Scope string_scope.

(** More of the Python library that is left abstract: [repr] of a text,
    the decimal digits of [\d], and [json.dumps] of the rows of a table. *)
Record pyext := PyExt {
  repr_text : pystr -> string;
  is_decimal : char -> bool;
  json_dumps : list row -> string
}.

(** The [DeviceInfo] built from a matched line. *)
Definition device_of_line (d : device_line) : DeviceInfo :=
  {| serial := to_text (dl_serial d);
     state := to_text (dl_state d);
     model := to_text (dl_model d);
     transport := option_map to_text (dl_transport d);
     android := None;
     sdk := None |}.

(** The first loop of [list_devices]: lines the pattern does not match are
    logged and skipped. *)
Fixpoint parse_devices (px : pyext) (lines : list pystr)
  : prog (list DeviceInfo) :=
  match lines with
  | [] => ret []
  | l :: lines' =>
      match parse_device_line (is_decimal px) l with
      | None =>
          emit (LogDebug ("Пропускаю строку devices: " ++ repr_text px l)) ;;
          parse_devices px lines'
      | Some d =>
          devs <- parse_devices px lines' ;;
          ret (device_of_line d :: devs)
      end
  end.

(** [text or None] *)
Definition nonempty (s : string) : option string :=
  if String.eqb s "" then None else Some s.

Definition getprop_release : list string :=
  ["shell"; "getprop"; "ro.build.version.release"].
Definition getprop_sdk : list string :=
  ["shell"; "getprop"; "ro.build.version.sdk"].

(** The second loop of [list_devices]: the Android version and the SDK level
    of every device in state [device]. *)
Fixpoint add_versions (py : pylib) (w : os) (adb : AdbRunner)
  (devs : list DeviceInfo) : prog (list DeviceInfo) :=
  match devs with
  | [] => ret []
  | d :: devs' =>
      d' <-
        (if negb (String.eqb (state d) "device") then ret d
         else
           '(_, rel, _) <-
             run_default py w adb getprop_release (Some (serial d)) ;;
           '(_, sdk_out, _) <-
             run_default py w adb getprop_sdk (Some (serial d)) ;;
           ret {| serial := serial d; state := state d; model := model d;
                  transport := transport d;
                  android := nonempty (strip py rel);
                  sdk := nonempty (strip py sdk_out) |}) ;;
      rest <- add_versions py w adb devs' ;;
      ret (d' :: rest)
  end.

(** [DeviceSelector.list_devices] *)
Definition list_devices (py : pylib) (px : pyext) (w : os) (adb : AdbRunner)
  : prog (list DeviceInfo) :=
  '(rc, out, err) <- run_default py w adb ["devices"; "-l"] None ;;
  if negb (rc =? 0)%Z then
    die 1 ("adb devices вернул код " ++ str_of_int rc ++ ": " ++ strip py err)
  else
    devs <- parse_devices px (device_lines (of_text out)) ;;
    add_versions py w adb devs.

(** The row of [cmd_devices] for a device. *)
Definition device_row (d : DeviceInfo) : row :=
  [ (codes "serial", of_text (serial d));
    (codes "state", of_text (state d));
    (codes "model", of_text (model d));
    (codes "android", of_text (opt_text (android d)));
    (codes "sdk", of_text (opt_text (sdk d)));
    (codes "transport", of_text (opt_text (transport d))) ].

(** [print] of every line of a list. *)
Fixpoint print_lines (lines : list pystr) : prog unit :=
  match lines with
  | [] => ret tt
  | l :: lines' => emit (PrintOut (to_text l)) ;; print_lines lines'
  end.

(** [json_or_table] *)
Definition json_or_table (px : pyext) (rows : list row) (as_json : bool)
  : prog unit :=
  if as_json then emit (PrintOut (json_dumps px rows))
  else print_lines (print_table rows).

(** [cmd_devices] *)
Definition cmd_devices (py : pylib) (px : pyext) (w : os) (adb : AdbRunner)
  (as_json : bool) : prog Z :=
  devs <- list_devices py px w adb ;;
  json_or_table px (map device_row devs) as_json ;;
  ret 0%Z.

Close Scope string_scope.

(** ** What a pattern consumes

    [rx_sem r pre rest gs gs'] says that [r] can consume [pre] in front of
    [rest] and turn the groups [gs] into [gs']. *)
Fixpoint rx_sem (r : rx) (pre rest : pystr) (gs gs' : groups) : Prop :=
  match r with
  | RLit lit => pre = lit /\ gs' = gs
  | RRep c at_least_one _ =>
      Forall (fun x => c x = true) pre /\
      (at_least_one = true -> pre <> []) /\ gs' = gs
  | RSeq a b =>
      exists p1 p2 g1,
        pre = p1 ++ p2 /\ rx_sem a p1 (p2 ++ rest) gs g1 /\
        rx_sem b p2 rest g1 gs'
  | RAlt a b => rx_sem a pre rest gs gs' \/ rx_sem b pre rest gs gs'
  | ROpt a => rx_sem a pre rest gs gs' \/ (pre = [] /\ gs' = gs)
  | RGroup name a =>
      exists g1, rx_sem a pre rest gs g1 /\ gs' = (name, pre) :: g1
  | REnd => pre = [] /\ gs' = gs /\ (rest = [] \/ rest = [10%N])
  end.

(** The three states a device line can name. *)
Definition DEVICE_STATES : list pystr :=
  [codes "device"; codes "offline"; codes "unauthorized"].

(** ** Notions used to state the properties of the device list *)

(** The devices that the lines of an output describe, in order. *)
Definition parsed_devices (px : pyext) (out : string) : list DeviceInfo :=
  flat_map (fun l => match parse_device_line (is_decimal px) l with
                     | Some d => [device_of_line d]
                     | None => []
                     end)
           (device_lines (of_text out)).

(** The two commands that ask a device in state [device] for its versions. *)
Definition version_runs (adb : AdbRunner) (t : Z) (d : DeviceInfo)
  : list event :=
  if is_online d then
    [SubprocessRun (_build adb getprop_release (Some (serial d))) t;
     SubprocessRun (_build adb getprop_sdk (Some (serial d))) t]
  else [].

(** Two records describe the same line of the device list. *)
Definition same_device (a b : DeviceInfo) : Prop :=
  serial a = serial b /\ state a = state b /\ model a = model b /\
  transport a = transport b.

(** The arguments of the capture command of [cmd_logcat]. *)
Definition logcat_args (since : option string) (filter_arg : list string)
  : list string :=
  ["logcat"%string]
  ++ (match since with
      | Some s => if truthy since then ["-T"%string; s] else []
      | None => []
      end)
  ++ filter_arg.

Definition is_open_file (e : event) : bool :=
  match e with OpenFile _ => true | _ => false end.

(** * [Config.load] and the timeout of [main] *)

Open Scope string_scope.

Definition DEFAULT_TIMEOUT : Z := 30.

Record Config := {
  adb_path : option string;
  default_serial : option string;
  default_timeout : Z;
  output_dir_logs : string;
  output_dir_screens : string
}.

(** The values of [~/.adbhelper.toml] that [Config.load] reads; the timeout
    is there when the file gives an integer for it. *)
Record toml_data := {
  t_adb_path : option string;
  t_default_serial : option string;
  t_output_dir_logs : option string;
  t_output_dir_screens : option string;
  t_default_timeout : option Z
}.

(** The configuration file: not there (or no TOML reader), not readable, or
    loaded. *)
Inductive toml_file :=
| TomlAbsent
| TomlUnreadable (error : string)
| TomlLoaded (data : toml_data).

(** [x or None] *)
Definition or_none (x : option string) : option string :=
  if truthy x then x else None.

(** [x or default] for texts. *)
Definition text_or (x : option string) (default : string) : string :=
  if truthy x then opt_text x else default.

(** [x or y] for optional texts. *)
Definition opt_or (x y : option string) : option string :=
  if truthy x then x else y.

(** [Config.load]; [getenv] is the environment, [int_of_text] is [int(...)]
    with [None] for a [ValueError], [conf_path] the path of the file. *)
Definition load (getenv : string -> option string)
  (int_of_text : string -> option Z) (conf_path : string) (toml : toml_file)
  : prog Config :=
  let cfg :=
    {| adb_path := or_none (getenv "ADBHELPER_ADB_PATH");
       default_serial := or_none (getenv "ADBHELPER_DEFAULT_SERIAL");
       default_timeout :=
         match int_of_text (opt_text (getenv "ADBHELPER_DEFAULT_TIMEOUT")) with
         | Some v => if (0 <? v)%Z then v else DEFAULT_TIMEOUT
         | None => DEFAULT_TIMEOUT
         end;
       output_dir_logs := text_or (getenv "ADBHELPER_OUTPUT_LOGS") "logs";
       output_dir_screens :=
         text_or (getenv "ADBHELPER_OUTPUT_SCREENS") "screenshots" |} in
  match toml with
  | TomlAbsent => ret cfg
  | TomlUnreadable e =>
      emit (LogWarning ("Не удалось прочитать конфиг " ++ conf_path ++ ": "
                        ++ e)) ;;
      ret cfg
  | TomlLoaded data =>
      ret {| adb_path := opt_or (t_adb_path data) (adb_path cfg);
             default_serial :=
               opt_or (t_default_serial data) (default_serial cfg);
             default_timeout :=
               match t_default_timeout data with
               | Some v => if (0 <? v)%Z then v else default_timeout cfg
               | None => default_timeout cfg
               end;
             output_dir_logs :=
               text_or (t_output_dir_logs data) (output_dir_logs cfg);
             output_dir_screens :=
               text_or (t_output_dir_screens data) (output_dir_screens cfg) |}
  end.

(** [args.timeout or cfg.default_timeout or DEFAULT_TIMEOUT] in [main]. *)
Definition main_timeout (timeout_arg : option Z) (cfg : Config) : Z :=
  int_or timeout_arg (int_or (Some (default_timeout cfg)) DEFAULT_TIMEOUT).

Close Scope string_scope.

(** * [cmd_input], [cmd_install] and [cmd_screen] *)

Open Scope string_scope.






(** The flags of [cmd_install], in the order the code adds them. *)
Definition install_flags (replace downgrade grant_all : bool) : list string :=
  (["install"] ++ (if replace then ["-r"] else [])
   ++ (if downgrade then ["-d"] else [])
   ++ (if grant_all then ["-g"] else []))%list.

(** [cmd_install]; [apk_exists] tells whether the file is there. *)
Definition cmd_install (py : pylib) (w : os) (adb : AdbRunner)
  (pick_device : prog string) (apk : string) (apk_exists : bool)
  (replace downgrade grant_all : bool) : prog Z :=
  (if apk_exists then ret tt else die 4 ("APK не найден: " ++ apk)) ;;
  serial <- pick_device ;;
  '(rc, out, err) <-
    run_default py w adb (install_flags replace downgrade grant_all ++ [apk])%list
                (Some serial) ;;
  (if (rc =? 0)%Z then
     emit (PrintOut "Установка завершена.") ;;
     emit (PrintOut (strip py out))
   else
     emit (PrintOut (strip py out)) ;;
     emit (PrintErr (strip py err))) ;;
  ret rc.





Close Scope string_scope.

(** * Facts about the matcher *)

Lemma grow_some c r m :
  grow c r = Some m ->
  exists seg rest, r = Some (seg :: rest) /\ m = (c :: seg) :: rest.
Proof.
  destruct r as [[|seg rest]|]; simpl; intros H; try discriminate.
  injection H as <-. now exists seg, rest.
Qed.

Lemma greedy_sound cl k : forall s m,
  greedy cl k s = Some m ->
  exists seg rest s',
    m = seg :: rest /\ s = seg ++ s' /\
    Forall (fun c => cl c = true) seg /\ k s' = Some rest.
Proof.
  assert (base : forall s m, option_map (cons []) (k s) = Some m ->
    exists seg rest s', m = seg :: rest /\ s = seg ++ s' /\
      Forall (fun c => cl c = true) seg /\ k s' = Some rest).
  { intros s m H. destruct (k s) as [rest|] eqn:E; simpl in H; try discriminate.
    injection H as <-. exists [], rest, s. repeat split; auto. }
  induction s as [|c s IH]; intros m H; cbn [greedy] in H.
  - now apply base.
  - destruct (cl c) eqn:Ec; [|now apply base].
    destruct (greedy cl k s) as [r|] eqn:Eg; [|now apply base].
    apply grow_some in H. destruct H as (seg & rest & Hr & ->).
    injection Hr as ->.
    destruct (IH _ eq_refl) as (seg' & rest' & s' & Heq & -> & Hall & Hk).
    injection Heq as <- <-.
    exists (c :: seg), rest, s'. repeat split; auto.
Qed.

Lemma re_match_sound : forall r s m,
  re_match r s = Some m ->
  Forall2 seg_ok r m /\ exists rest, s = concat m ++ rest.
Proof.
  induction r as [|p r IH]; intros s m H; cbn [re_match] in H.
  - injection H as <-. split; [constructor | now exists s].
  - unfold seg_ok. destruct (rep p) eqn:Eq.
    + destruct s as [|c s]; try discriminate.
      destruct (cls p c) eqn:Ec; try discriminate.
      destruct (re_match r s) as [m'|] eqn:Em; try discriminate.
      injection H as <-. destruct (IH _ _ Em) as (HF & rest & ->).
      split; [|now exists rest].
      constructor; auto. rewrite Eq. split; auto.
    + destruct s as [|c s]; try discriminate.
      destruct (cls p c) eqn:Ec; try discriminate.
      apply grow_some in H. destruct H as (seg & rest & Hg & ->).
      apply greedy_sound in Hg.
      destruct Hg as (seg' & rest' & s' & Heq & -> & Hall & Hk).
      injection Heq as <- <-. destruct (IH _ _ Hk) as (HF & tl & ->).
      split.
      * constructor; auto. rewrite Eq. split; [auto | simpl; lia].
      * exists tl. simpl. now rewrite <- app_assoc.
    + apply greedy_sound in H.
      destruct H as (seg & rest & s' & -> & -> & Hall & Hk).
      destruct (IH _ _ Hk) as (HF & tl & ->).
      split.
      * constructor; auto. rewrite Eq. split; auto.
      * exists tl. simpl. now rewrite <- app_assoc.
Qed.

Lemma greedy_shape cl k s m :
  greedy cl k s = Some m -> m <> [].
Proof.
  intros H. apply greedy_sound in H.
  destruct H as (seg & rest & _ & -> & _). discriminate.
Qed.

Lemma greedy_complete cl k : forall seg s',
  Forall (fun c => cl c = true) seg -> k s' <> None ->
  greedy cl k (seg ++ s') <> None.
Proof.
  assert (base : forall s, k s <> None -> greedy cl k s <> None).
  { intros s Hk. destruct s as [|c s]; simpl.
    - destruct (k []); [discriminate | congruence].
    - destruct (cl c).
      + destruct (greedy cl k s) as [r|] eqn:Eg.
        * destruct r as [|x r]; [now apply greedy_shape in Eg|].
          simpl. discriminate.
        * destruct (k (c :: s)); [discriminate | congruence].
      + destruct (k (c :: s)); [discriminate | congruence]. }
  induction seg as [|c seg IH]; intros s' Hall Hk; simpl.
  - now apply base.
  - inversion Hall as [|? ? Hc Hall']; subst. rewrite Hc.
    specialize (IH s' Hall' Hk).
    destruct (greedy cl k (seg ++ s')) as [r|] eqn:Eg; [|congruence].
    destruct r as [|x r]; [now apply greedy_shape in Eg|].
    simpl. discriminate.
Qed.

Lemma char_in_In set c : char_in set c = true <-> In c set.
Proof.
  unfold char_in. rewrite existsb_exists. split.
  - intros (x & Hin & Heq). apply N.eqb_eq in Heq. now subst.
  - intros Hin. exists c. split; auto. apply N.eqb_refl.
Qed.

Lemma char_in_single a c : char_in [a] c = true <-> c = a.
Proof.
  rewrite char_in_In. simpl. intuition.
Qed.

Lemma nonempty_length (s : pystr) : (1 <= length s)%nat <-> s <> [].
Proof.
  destruct s; simpl; split; intros; try lia; congruence.
Qed.

(** The seven segments of a match of [RE_LOGCAT_LEVEL]. *)
Lemma logcat_match_inv line m :
  re_match RE_LOGCAT_LEVEL line = Some m ->
  exists field spaces lvl tag ws rest,
    m = [field; spaces; [lvl]; codes "/"; tag; ws; codes "("]
    /\ line = field ++ spaces ++ [lvl] ++ codes "/" ++ tag ++ ws ++ codes "(" ++ rest
    /\ field <> [] /\ Forall (fun c => is_space c = false) field
    /\ spaces <> [] /\ Forall (fun c => c = 32%N) spaces
    /\ In lvl (codes "VDIWEF")
    /\ tag <> []
    /\ Forall (fun c => ~ In c (codes "() ")) tag
    /\ Forall (fun c => is_space c = true) ws.
Proof.
  intros H. apply re_match_sound in H. destruct H as (HF & rest & Hline).
  unfold RE_LOGCAT_LEVEL in HF.
  repeat match goal with
         | H : Forall2 _ (_ :: _) _ |- _ => inversion H; subst; clear H
         | H : Forall2 _ [] _ |- _ => inversion H; subst; clear H
         end.
  repeat match goal with
         | H : seg_ok _ _ |- _ => destruct H as [? ?]
         end.
  cbn [cls rep] in *.
  repeat match goal with
         | H : length ?s = 1%nat |- _ =>
             destruct s as [|? [|? ?]]; try discriminate H; clear H
         end.
  repeat match goal with
         | H : Forall _ [_] |- _ => inversion H; subst; clear H
         | H : Forall _ [] |- _ => clear H
         end.
  repeat match goal with
         | H : char_in (codes "/") _ = true |- _ => apply char_in_single in H; subst
         | H : char_in (codes "(") _ = true |- _ => apply char_in_single in H; subst
         | H : char_in (codes "VDIWEF") _ = true |- _ => apply char_in_In in H
         | H : (1 <= length _)%nat |- _ => apply nonempty_length in H
         end.
  match goal with
  | H : concat [?f; ?sp; [?l]; _; ?t; ?w; _] ++ _ = _ |- _ => idtac
  | |- context [ [?f; ?sp; [?l]; _; ?t; ?w; _] ] =>
      exists f, sp, l, t, w, rest
  end.
  split; [reflexivity|].
  split; [cbn [concat]; rewrite app_nil_r, <- !app_assoc; reflexivity|].
  repeat split; auto;
    match goal with
    | H : Forall _ ?l |- Forall _ ?l =>
        eapply Forall_impl; [|exact H]; cbv beta; intros c Hc
    end.
  - now apply negb_true_iff in Hc.
  - now apply char_in_single in Hc.
  - intros Hin. apply char_in_In in Hin.
    change (negb (char_in (codes "() ") c) = true) in Hc.
    rewrite Hin in Hc. discriminate.
Qed.

Lemma re_match_complete : forall r segs rest,
  Forall2 seg_ok r segs -> re_match r (concat segs ++ rest) <> None.
Proof.
  induction r as [|p r IH]; intros segs rest HF; inversion HF as [|? seg ? segs' [Hall Hq] HF']; subst.
  - discriminate.
  - cbn [re_match concat]. rewrite <- app_assoc.
    specialize (IH segs' rest HF').
    destruct (rep p).
    + destruct seg as [|c [|? ?]]; try discriminate Hq.
      inversion Hall as [|? ? Hc _]; subst. cbn [app]. rewrite Hc.
      destruct (re_match r (concat segs' ++ rest)); [discriminate | congruence].
    + destruct seg as [|c seg]; [simpl in Hq; lia|].
      inversion Hall as [|? ? Hc Hall']; subst. cbn [app]. rewrite Hc.
      pose proof (@greedy_complete (cls p) (re_match r) seg _ Hall' IH) as Hg.
      destruct (greedy (cls p) (re_match r) (seg ++ concat segs' ++ rest))
        as [[|x m]|] eqn:Eg; try congruence.
      * now apply greedy_shape in Eg.
      * discriminate.
    + now apply greedy_complete.
Qed.

(** [RE_LOGCAT_LEVEL.match(line)] succeeds exactly on the lines of that shape. *)
Lemma logcat_match_iff line :
  re_match RE_LOGCAT_LEVEL line <> None <-> logcat_shape line.
Proof.
  split.
  - destruct (re_match RE_LOGCAT_LEVEL line) as [m|] eqn:E; [intros _|congruence].
    apply logcat_match_inv in E.
    destruct E as (field & spaces & lvl & tag & ws & rest & _ & H).
    now exists field, spaces, lvl, tag, ws, rest.
  - intros (field & spaces & lvl & tag & ws & rest & -> & Hf & Hfs & Hs & Hss
            & Hl & Ht & Hts & Hws).
    replace (field ++ spaces ++ [lvl] ++ codes "/" ++ tag ++ ws ++ codes "(" ++ rest)
      with (concat [field; spaces; [lvl]; codes "/"; tag; ws; codes "("] ++ rest)
      by (cbn [concat]; rewrite app_nil_r, <- !app_assoc; reflexivity).
    apply re_match_complete. unfold RE_LOGCAT_LEVEL.
    repeat constructor; cbn [cls rep]; try (apply nonempty_length; assumption).
    + eapply Forall_impl; [|exact Hfs]. cbv beta. intros c Hc. now rewrite Hc.
    + eapply Forall_impl; [|exact Hss]. cbv beta. intros c ->. reflexivity.
    + now apply char_in_In.
    + eapply Forall_impl; [|exact Hts]. cbv beta. intros c Hc.
      apply negb_true_iff. destruct (char_in (codes "() ") c) eqn:E; auto.
      apply char_in_In in E. contradiction.
    + exact Hws.
Qed.

(** * Facts about dictionaries *)

Lemma pystr_eqb_eq a b : pystr_eqb a b = true <-> a = b.
Proof.
  unfold pystr_eqb. destruct (list_eq_dec N.eq_dec a b); split; congruence.
Qed.

Lemma pystr_eqb_refl a : pystr_eqb a a = true.
Proof. now apply pystr_eqb_eq. Qed.

Lemma pystr_eqb_neq a b : pystr_eqb a b = false <-> a <> b.
Proof.
  unfold pystr_eqb. destruct (list_eq_dec N.eq_dec a b); split; congruence.
Qed.

Lemma pystr_eqb_sym a b : pystr_eqb a b = pystr_eqb b a.
Proof.
  destruct (pystr_eqb b a) eqn:E.
  - apply pystr_eqb_eq in E. subst. apply pystr_eqb_refl.
  - apply pystr_eqb_neq. apply pystr_eqb_neq in E. congruence.
Qed.

Lemma dict_get_set k v k' def d :
  dict_get k' def (dict_set k v d) =
  if pystr_eqb k k' then v else dict_get k' def d.
Proof.
  induction d as [|[k0 v0] d IH]; simpl.
  - reflexivity.
  - destruct (pystr_eqb k0 k) eqn:E0; simpl.
    + apply pystr_eqb_eq in E0. subst k0.
      destruct (pystr_eqb k k'); reflexivity.
    + destruct (pystr_eqb k0 k') eqn:E1.
      * apply pystr_eqb_eq in E1. subst k0.
        rewrite pystr_eqb_sym, E0. reflexivity.
      * exact IH.
Qed.

(** Incrementing a counter adds one to the sum of all counters. *)
Lemma zsum_incr k d :
  zsum (values (dict_set k (dict_get k 0 d + 1)%Z d)) = (zsum (values d) + 1)%Z.
Proof.
  unfold zsum, values.
  induction d as [|[k0 v0] d IH]; simpl.
  - reflexivity.
  - destruct (pystr_eqb k0 k); simpl; [lia|].
    rewrite IH. lia.
Qed.

Lemma keys_set_in k v d :
  In k (keys d) -> keys (dict_set k v d) = keys d.
Proof.
  induction d as [|[k0 v0] d IH]; simpl; [tauto|].
  intros Hin. destruct (pystr_eqb k0 k) eqn:E; simpl; [reflexivity|].
  apply pystr_eqb_neq in E. destruct Hin as [Hin|Hin]; [contradiction|].
  f_equal. now apply IH.
Qed.


Lemma values_nonneg_set k d :
  Forall (fun v => 0 <= v)%Z (values d) ->
  Forall (fun v => 0 <= v)%Z (values (dict_set k (dict_get k 0 d + 1)%Z d)).
Proof.
  induction d as [|[k0 v0] d IH]; simpl; intros H.
  - constructor; [lia | constructor].
  - inversion H; subst. destruct (pystr_eqb k0 k); simpl; constructor; auto.
    lia.
Qed.

(** * Facts about the scan *)

Lemma count_cons f x l : count f (x :: l) = (b2z (f x) + count f l)%Z.
Proof.
  unfold count, b2z. cbn [filter]. destruct (f x); cbn [length]; lia.
Qed.

Lemma level_of_in_keys line l :
  level_of line = Some l -> In l level_keys.
Proof.
  unfold level_of. destruct (re_match RE_LOGCAT_LEVEL line) as [m|] eqn:E;
    simpl; intros H; try discriminate. injection H as <-.
  apply logcat_match_inv in E.
  destruct E as (field & spaces & lvl & tag & ws & rest & -> & _ & _ & _ & _ & _ & Hl & _).
  unfold group_level. cbn [nth].
  change (codes "VDIWEF") with [86; 68; 73; 87; 69; 70]%N in Hl.
  simpl in Hl. unfold level_keys.
  repeat (destruct Hl as [<-|Hl]; [simpl; tauto|]). contradiction.
Qed.

Lemma step_lines_total st line :
  lines_total (step st line) = (lines_total st + 1)%Z.
Proof.
  unfold step. destruct (re_match RE_LOGCAT_LEVEL line); reflexivity.
Qed.

Lemma step_fatals st line :
  fatals (step st line) = (fatals st + b2z (re_search RE_FATAL line))%Z.
Proof.
  unfold step. destruct (re_match RE_LOGCAT_LEVEL line);
    destruct (re_search RE_FATAL line); simpl; lia.
Qed.

Lemma step_levels st line :
  levels (step st line) =
  match level_of line with
  | Some lvl => dict_set lvl (dict_get lvl 0 (levels st) + 1)%Z (levels st)
  | None => levels st
  end.
Proof.
  unfold step, level_of. destruct (re_match RE_LOGCAT_LEVEL line); reflexivity.
Qed.

Lemma step_tags st line :
  tags (step st line) =
  match tag_of line with
  | Some tag => dict_set tag (dict_get tag 0 (tags st) + 1)%Z (tags st)
  | None => tags st
  end.
Proof.
  unfold step, tag_of. destruct (re_match RE_LOGCAT_LEVEL line); reflexivity.
Qed.

Lemma level_of_matched line :
  matched line = match level_of line with Some _ => true | None => false end.
Proof.
  unfold matched, level_of. now destruct (re_match RE_LOGCAT_LEVEL line).
Qed.

Lemma tag_of_matched line :
  matched line = match tag_of line with Some _ => true | None => false end.
Proof.
  unfold matched, tag_of. now destruct (re_match RE_LOGCAT_LEVEL line).
Qed.

Lemma step_level_sum st line :
  zsum (values (levels (step st line))) =
  (zsum (values (levels st)) + b2z (matched line))%Z.
Proof.
  rewrite step_levels, level_of_matched.
  destruct (level_of line); simpl; [apply zsum_incr | lia].
Qed.

Lemma step_tag_sum st line :
  zsum (values (tags (step st line))) =
  (zsum (values (tags st)) + b2z (matched line))%Z.
Proof.
  rewrite step_tags, tag_of_matched.
  destruct (tag_of line); simpl; [apply zsum_incr | lia].
Qed.

(** The counters after a run that starts in any state. *)
Lemma run_counts : forall lines st,
  let st' := fold_left step lines st in
  lines_total st' = (lines_total st + Z.of_nat (length lines))%Z /\
  zsum (values (levels st')) = (zsum (values (levels st)) + count matched lines)%Z /\
  zsum (values (tags st')) = (zsum (values (tags st)) + count matched lines)%Z /\
  fatals st' = (fatals st + count (re_search RE_FATAL) lines)%Z.
Proof.
  induction lines as [|line lines IH]; intros st.
  - unfold count. cbn [fold_left filter length]. repeat split; lia.
  - cbn [fold_left]. specialize (IH (step st line)). cbv zeta in IH |- *.
    destruct IH as (H1 & H2 & H3 & H4).
    rewrite H1, H2, H3, H4, !count_cons, step_lines_total, step_level_sum,
      step_tag_sum, step_fatals.
    cbn [length]. repeat split; lia.
Qed.

Lemma count_split f lines :
  Z.of_nat (length lines) = (count f lines + count (fun l => negb (f l)) lines)%Z.
Proof.
  induction lines as [|x l IH]; [reflexivity|].
  rewrite !count_cons. cbn [length]. unfold b2z. destruct (f x); cbn [negb]; lia.
Qed.

(** * The counters of the analysis *)

Lemma step_level_get st line lvl :
  dict_get lvl 0 (levels (step st line)) =
  (dict_get lvl 0 (levels st) + b2z (has_level lvl line))%Z.
Proof.
  rewrite step_levels. unfold has_level, b2z.
  destruct (level_of line) as [l|]; [|lia].
  rewrite dict_get_set. destruct (pystr_eqb l lvl) eqn:E; [|lia].
  apply pystr_eqb_eq in E. now subst.
Qed.

Lemma step_tag_get st line tag :
  dict_get tag 0 (tags (step st line)) =
  (dict_get tag 0 (tags st) + b2z (has_tag tag line))%Z.
Proof.
  rewrite step_tags. unfold has_tag, b2z.
  destruct (tag_of line) as [t|]; [|lia].
  rewrite dict_get_set. destruct (pystr_eqb t tag) eqn:E; [|lia].
  apply pystr_eqb_eq in E. now subst.
Qed.

(** C1. Every line adds one to the line counter; it adds one to the level
    counts and to the tag counts, at exactly one key each, when it matches
    the record pattern and nothing when it does not, whatever the
    fatal-marker search finds on it.  Over a whole input the number of lines
    is the number of matched lines plus the number of unmatched lines. *)
Theorem C1_total_is_matched_plus_unmatched : forall lines : list pystr,
  let r := analyze lines in
  r_lines r = Z.of_nat (length lines) /\
  zsum (values (r_levels r)) = count matched lines /\
  zsum (values (tags (scan lines))) = count matched lines /\
  r_lines r =
    (zsum (values (r_levels r)) + count (fun l => negb (matched l)) lines)%Z /\
  (forall st line key,
     lines_total (step st line) = (lines_total st + 1)%Z /\
     zsum (values (levels (step st line))) =
       (zsum (values (levels st)) + b2z (matched line))%Z /\
     zsum (values (tags (step st line))) =
       (zsum (values (tags st)) + b2z (matched line))%Z /\
     dict_get key 0 (levels (step st line)) =
       (dict_get key 0 (levels st) + b2z (has_level key line))%Z /\
     dict_get key 0 (tags (step st line)) =
       (dict_get key 0 (tags st) + b2z (has_tag key line))%Z) /\
  (forall line,
     if matched line
     then exists lvl tag, forall key,
            has_level key line = pystr_eqb lvl key /\
            has_tag key line = pystr_eqb tag key
     else forall key, has_level key line = false /\ has_tag key line = false).
Proof.
  intros lines r.
  destruct (run_counts lines init) as (H1 & H2 & H3 & _).
  unfold r, analyze, scan. cbn [r_lines r_levels].
  rewrite H1, H2, H3.
  change (lines_total init) with 0%Z.
  change (zsum (values (levels init))) with 0%Z.
  change (zsum (values (tags init))) with 0%Z.
  rewrite (count_split matched lines).
  split; [lia|]. split; [lia|]. split; [lia|]. split; [lia|]. split.
  - intros st line key. repeat split.
    + apply step_lines_total.
    + apply step_level_sum.
    + apply step_tag_sum.
    + apply step_level_get.
    + apply step_tag_get.
  - intros line. unfold matched, has_level, has_tag, level_of, tag_of.
    destruct (re_match RE_LOGCAT_LEVEL line) as [m|]; cbn [option_map].
    + exists (group_level m), (group_tag m). now split.
    + now split.
Qed.

(** * The level mapping *)

Lemma run_levels : forall lines st,
  keys (levels st) = level_keys ->
  Forall (fun v => 0 <= v)%Z (values (levels st)) ->
  let st' := fold_left step lines st in
  keys (levels st') = level_keys /\
  Forall (fun v => 0 <= v)%Z (values (levels st')) /\
  forall lvl, dict_get lvl 0 (levels st') =
              (dict_get lvl 0 (levels st) + count (has_level lvl) lines)%Z.
Proof.
  induction lines as [|line lines IH]; intros st Hk Hv.
  - cbn [fold_left]. repeat split; auto. intros lvl. unfold count. simpl. lia.
  - cbn [fold_left]. cbv zeta.
    assert (Hk' : keys (levels (step st line)) = level_keys).
    { rewrite step_levels. destruct (level_of line) as [l|] eqn:E; auto.
      rewrite keys_set_in; auto. rewrite Hk. eapply level_of_in_keys; eauto. }
    assert (Hv' : Forall (fun v => 0 <= v)%Z (values (levels (step st line)))).
    { rewrite step_levels. destruct (level_of line) as [l|]; auto.
      now apply values_nonneg_set. }
    destruct (IH _ Hk' Hv') as (H1 & H2 & H3).
    repeat split; auto. intros lvl.
    rewrite H3, step_level_get, count_cons. lia.
Qed.

(** C5. Whatever the input, the level mapping of the report has the six
    keys V, D, I, W, E, F and no other; every count is non-negative and is the
    number of lines of that level, so zero when there is none. *)
Theorem C5_levels_always_six_keys : forall lines : list pystr,
  let lv := r_levels (analyze lines) in
  keys lv = [codes "V"; codes "D"; codes "I"; codes "W"; codes "E"; codes "F"] /\
  Forall (fun v => 0 <= v)%Z (values lv) /\
  (forall lvl, dict_get lvl 0 lv = count (has_level lvl) lines) /\
  r_levels (analyze []) = levels_with_I 0.
Proof.
  intros lines lv. unfold lv, analyze, scan. cbn [r_levels].
  assert (Hk : keys (levels init) = level_keys) by reflexivity.
  assert (Hv : Forall (fun v => 0 <= v)%Z (values (levels init))).
  { unfold init, values. cbn [levels map snd]. repeat constructor; lia. }
  destruct (run_levels lines init Hk Hv) as (H1 & H2 & H3).
  repeat split; auto.
  intros lvl. rewrite H3.
  assert (H0 : dict_get lvl 0 (levels init) = 0%Z).
  { unfold init. cbn [levels dict_get].
    repeat match goal with |- context [pystr_eqb ?a ?b] => destruct (pystr_eqb a b) end;
      reflexivity. }
  lia.
Qed.

(** * The single line without a leading field *)

(** C2, as stated, fails: the line [I/Tag1: msg] has no field before the
    level and no parenthesis after the tag, so it is counted in no level. *)
Lemma C2_counterexample :
  r_levels (analyze_text (codes "I/Tag1: msg")) <> levels_with_I 1 /\
  r_levels (analyze [codes "I/Tag1: msg"]) <> levels_with_I 1 /\
  re_match RE_LOGCAT_LEVEL (codes "I/Tag1: msg") = None.
Proof.
  repeat split; vm_compute; congruence.
Qed.

(** C2, amended. The single line [I/Tag1: msg] counts as a line and leaves
    all six levels at zero.  The record pattern accepts exactly the lines
    that start with a field free of white space, followed by spaces, a level
    letter, a slash, a tag and, after optional white space, an opening
    parenthesis; such a line with level I yields the mapping with I at 1. *)
Theorem C2_single_line_amended :
  r_levels (analyze_text (codes "I/Tag1: msg")) = levels_with_I 0 /\
  r_lines (analyze_text (codes "I/Tag1: msg")) = 1%Z /\
  r_levels (analyze_text (codes "I/Tag1: msg" ++ [10%N])) = levels_with_I 0 /\
  (forall line, re_match RE_LOGCAT_LEVEL line <> None <-> logcat_shape line) /\
  r_levels (analyze_text (codes "09:00:01 I/Tag1( 42): msg")) = levels_with_I 1 /\
  r_top10_tags (analyze_text (codes "09:00:01 I/Tag1( 42): msg")) =
    [(codes "Tag1", 1%Z)].
Proof.
  split; [vm_compute; reflexivity|].
  split; [vm_compute; reflexivity|].
  split; [vm_compute; reflexivity|].
  split; [exact logcat_match_iff|].
  split; vm_compute; reflexivity.
Qed.

(** * Fatal markers *)

Lemma lit_prefix_iff : forall lit s,
  lit_prefix lit s = true <->
  exists mid post, s = mid ++ post /\
                   Forall2 (fun p c => ichar_match p c = true) lit mid.
Proof.
  induction lit as [|p lit IH]; intros s; simpl.
  - split; auto. intros _. exists [], s. split; auto.
  - destruct s as [|c s].
    + split; [discriminate|]. intros (mid & post & Heq & HF).
      inversion HF; subst. discriminate.
    + rewrite andb_true_iff, IH. split.
      * intros (Hc & mid & post & -> & HF). exists (c :: mid), post. split; auto.
      * intros (mid & post & Heq & HF). inversion HF; subst.
        injection Heq as <- ->. split; auto. eauto.
Qed.

Lemma re_search_iff alts : forall s,
  re_search alts s = true <->
  exists pre rest, s = pre ++ rest /\ alt_prefix alts rest = true.
Proof.
  induction s as [|c s IH]; cbn [re_search].
  - rewrite orb_false_r. split.
    + intros H. now exists [], [].
    + intros (pre & rest & Heq & H). symmetry in Heq.
      apply app_eq_nil in Heq. destruct Heq; now subst.
  - rewrite orb_true_iff, IH. split.
    + intros [H|(pre & rest & -> & H)].
      * now exists [], (c :: s).
      * now exists (c :: pre), rest.
    + intros (pre & rest & Heq & H). destruct pre as [|c' pre].
      * left. simpl in Heq. now subst.
      * right. injection Heq as <- ->. now exists pre, rest.
Qed.

(** [RE_FATAL.search(line)] finds something exactly when the line contains
    one of the markers, letter case ignored. *)
Lemma fatal_search_iff line :
  re_search RE_FATAL line = true <-> has_fatal_marker line.
Proof.
  rewrite re_search_iff. unfold has_fatal_marker, contains_ci, alt_prefix.
  change FATAL_MARKERS with RE_FATAL. split.
  - intros (pre & rest & -> & H). apply existsb_exists in H.
    destruct H as (lit & Hin & Hp). apply lit_prefix_iff in Hp.
    destruct Hp as (mid & post & -> & HF).
    exists lit. split; auto. now exists pre, mid, post.
  - intros (lit & Hin & pre & mid & post & -> & HF).
    exists pre, (mid ++ post). split; auto.
    apply existsb_exists. exists lit. split; auto.
    apply lit_prefix_iff. now exists mid, post.
Qed.

(** C4. The fatal search runs on every line, matched or not, and ignores
    letter case; a line adds one to the fatal counter when it contains at
    least one marker, however many, and nothing otherwise. *)
Theorem C4_fatal_counter_once_per_line :
  (forall line, re_search RE_FATAL line = true <-> has_fatal_marker line) /\
  (forall st line,
     fatals (step st line) = (fatals st + b2z (re_search RE_FATAL line))%Z) /\
  (forall lines,
     r_fatals_or_anrs (analyze lines) = count (re_search RE_FATAL) lines) /\
  r_fatals_or_anrs
    (analyze [codes "x E/App( 1): FATAL EXCEPTION: main, ANR in com.app"]) = 1%Z /\
  r_fatals_or_anrs
    (analyze [codes "fatal exception and anr IN and Java.Lang.Error"]) = 1%Z /\
  r_fatals_or_anrs (analyze [codes "x I/App( 1): started"]) = 0%Z.
Proof.
  split; [exact fatal_search_iff|].
  split; [exact step_fatals|].
  split.
  - intros lines. destruct (run_counts lines init) as (_ & _ & _ & H).
    unfold analyze, scan. cbn [r_fatals_or_anrs]. rewrite H.
    change (fatals init) with 0%Z. lia.
  - repeat split; vm_compute; reflexivity.
Qed.

(** * Ranking of the tags *)

















(** ** The tag dictionary *)












(** * The command runner *)

Open Scope string_scope.

Lemma append_assoc (a b c : string) : (a ++ b) ++ c = a ++ b ++ c.
Proof.
  induction a as [|x a IH]; simpl; [reflexivity | now rewrite IH].
Qed.

(** Run the first [bind] of the goal on the trace it already has. *)
Ltac bind_step := unfold bind at 1; cbn [fst snd emit ret].

(** C9. In dry-run mode the runner logs and prints the command line it
    would run and returns [(0, "", "")]; no process is started and the
    outside world is not consulted. *)
Theorem C9_dry_run_prints_and_returns :
  forall py (w : os) self args serial capture timeout_arg check,
    dry_run self = true ->
    run py w self args serial capture timeout_arg check =
      ([LogDebug ("ADB CMD: " ++ join " " (_build self args serial));
        PrintOut ("[DRY-RUN] " ++ join " " (_build self args serial))],
       Return (0%Z, "", "")) /\
    filter is_spawn (fst (run py w self args serial capture timeout_arg check))
      = [] /\
    forall w' : os,
      run py w' self args serial capture timeout_arg check =
      run py w self args serial capture timeout_arg check.
Proof.
  intros py w self args serial capture timeout_arg check Hdry.
  unfold run. rewrite Hdry. repeat split.
Qed.

Lemma C9_dry_run_witness :
  run (PyLib (fun s => s) (fun _ _ => ""))
      (fun _ _ => TimeoutExpired)
      {| _adb_path := "adb"; dry_run := true; timeout := 30 |}
      ["devices"; "-l"] (Some "emulator-5554") true None false =
    ([LogDebug "ADB CMD: adb -s emulator-5554 devices -l";
      PrintOut "[DRY-RUN] adb -s emulator-5554 devices -l"],
     Return (0%Z, "", "")).
Proof.
  exact (proj1 (@C9_dry_run_prints_and_returns
                  (PyLib (fun s => s) (fun _ _ => ""))
                  (fun _ _ => TimeoutExpired)
                  {| _adb_path := "adb"; dry_run := true; timeout := 30 |}
                  ["devices"; "-l"] (Some "emulator-5554") true None false
                  eq_refl)).
Defined.

(** C8. When the process of a one-shot command runs into its timeout, the
    runner logs the error, prints one message to standard error and leaves
    with [SystemExit 5]; nothing is returned, whatever would follow the call
    is skipped, and the exit status of the program is 5. *)
Theorem C8_timeout_exits_with_5 :
  forall py (w : os) self args serial capture timeout_arg check,
    dry_run self = false ->
    w (_build self args serial) (int_or timeout_arg (timeout self))
      = TimeoutExpired ->
    let r := run py w self args serial capture timeout_arg check in
    let msg := "Команда превысила таймаут "
               ++ str_of_int (int_or timeout_arg (timeout self)) ++ " с: "
               ++ join " " (_build self args serial) in
    r = ([LogDebug ("ADB CMD: " ++ join " " (_build self args serial));
          SubprocessRun (_build self args serial)
                        (int_or timeout_arg (timeout self));
          LogError msg;
          PrintErr ("Ошибка: " ++ msg)],
         SystemExit 5) /\
    length (filter is_print_err (fst r)) = 1%nat /\
    (forall v, snd r <> Return v) /\
    (forall k : Z * string * string -> prog Z,
       bind r k = (fst r, SystemExit 5) /\
       exit_status (snd (bind r k)) = 5%Z).
Proof.
  intros py w self args serial capture timeout_arg check Hdry Hto r msg.
  assert (Hr : r = ([LogDebug ("ADB CMD: " ++ join " " (_build self args serial));
                     SubprocessRun (_build self args serial)
                                   (int_or timeout_arg (timeout self));
                     LogError msg; PrintErr ("Ошибка: " ++ msg)],
                    SystemExit 5)).
  { unfold r, run. rewrite Hdry. cbv zeta. do 2 bind_step.
    rewrite Hto. reflexivity. }
  rewrite Hr. repeat split; try discriminate.
Qed.

Lemma C8_timeout_witness :
  snd (run (PyLib (fun s => s) (fun _ _ => ""))
           (fun _ _ => TimeoutExpired)
           {| _adb_path := "adb"; dry_run := false; timeout := 30 |}
           ["shell"; "getprop"] None true (Some 7%Z) false)
  = SystemExit 5.
Proof.
  pose proof (@C8_timeout_exits_with_5
                (PyLib (fun s => s) (fun _ _ => ""))
                (fun _ _ => TimeoutExpired)
                {| _adb_path := "adb"; dry_run := false; timeout := 30 |}
                ["shell"; "getprop"] None true (Some 7%Z) false
                eq_refl eq_refl) as H.
  cbv zeta in H. destruct H as [H _]. rewrite H. reflexivity.
Defined.

(** * Device selection *)

Lemma occurs_in_join sep : forall (parts : list string) x,
  In x parts -> occurs_in x (join sep parts).
Proof.
  unfold occurs_in, join.
  induction parts as [|y parts IH]; intros x Hin; [contradiction|].
  destruct Hin as [->|Hin].
  - destruct parts as [|z parts]; cbn [String.concat].
    + exists "", "". simpl. induction x as [|c x IHx]; simpl; congruence.
    + exists "", (sep ++ String.concat sep (z :: parts)). reflexivity.
  - destruct (IH x Hin) as (pre & post & Heq).
    destruct parts as [|z parts]; [contradiction|].
    cbn [String.concat]. cbn [String.concat] in Heq. rewrite Heq.
    exists (y ++ sep ++ pre), post. now rewrite !append_assoc.
Qed.

Lemma occurs_in_several_devices_msg online d :
  In d online -> occurs_in (candidate_line d) (several_devices_msg online).
Proof.
  intros Hin. unfold several_devices_msg.
  destruct (@occurs_in_join nl (map candidate_line online) (candidate_line d))
    as (pre & post & Heq); [now apply in_map|].
  rewrite Heq.
  exists ("Несколько подключённых устройств. Укажите --serial. Список:"
          ++ nl ++ pre), post.
  now rewrite !append_assoc.
Qed.

(** C7. With no serial given, device selection over the devices in state
    [device] exits with code 3 when there is none, returns the serial of the
    only one when there is exactly one, and exits with code 3 with a message
    that lists every candidate when there are two or more.  An empty serial
    counts as none. *)
Theorem C7_pick_without_serial :
  forall (tr : list event) (devs : list DeviceInfo) (preferred : option string),
    truthy preferred = false ->
    let online := filter is_online devs in
    let r := pick (tr, Return devs) preferred in
    (online = [] ->
       r = ((tr ++ [LogError no_device_msg;
                    PrintErr ("Ошибка: " ++ no_device_msg)])%list,
            SystemExit 3)) /\
    (forall d, online = [d] -> r = (tr, Return (serial d))) /\
    ((2 <= length online)%nat ->
       r = ((tr ++ [LogError (several_devices_msg online);
                    PrintErr ("Ошибка: " ++ several_devices_msg online)])%list,
            SystemExit 3) /\
       Forall (fun d => occurs_in (candidate_line d)
                                  (several_devices_msg online)) online).
Proof.
  intros tr devs preferred Hp online r.
  assert (Hr : r = bind (tr, Return devs) (fun _ =>
            match online with
            | [] => die 3 no_device_msg
            | d :: _ =>
                if (1 <? length online)%nat
                then die 3 (several_devices_msg online)
                else ret (serial d)
            end)).
  { unfold r, pick. fold online.
    destruct preferred as [p|]; [rewrite Hp|]; reflexivity. }
  rewrite Hr. unfold bind. cbn [fst snd]. repeat split.
  - intros ->. reflexivity.
  - intros d ->. cbn [ret fst snd Nat.ltb Nat.leb length]. now rewrite app_nil_r.
  - destruct online as [|d [|d' rest]]; simpl in H; try lia. reflexivity.
  - apply Forall_forall. intros d Hin.
    now apply occurs_in_several_devices_msg.
Qed.

Lemma C7_pick_witness :
  snd (pick ([], Return [dev_offline]) None) = SystemExit 3 /\
  snd (pick ([], Return [dev_offline; dev_pixel]) (Some ""))
    = Return "emulator-5554" /\
  snd (pick ([], Return [dev_pixel; dev_offline; dev_unnamed]) None)
    = SystemExit 3 /\
  occurs_in "- 0A1B2C (n/a)" (several_devices_msg [dev_pixel; dev_unnamed]).
Proof.
  pose proof (@C7_pick_without_serial [] [dev_offline] None eq_refl) as H0.
  pose proof (@C7_pick_without_serial [] [dev_offline; dev_pixel] (Some "")
                eq_refl) as H1.
  pose proof (@C7_pick_without_serial [] [dev_pixel; dev_offline; dev_unnamed]
                None eq_refl) as H2.
  cbv zeta in H0, H1, H2.
  destruct H0 as (H0 & _ & _). destruct H1 as (_ & H1 & _).
  destruct H2 as (_ & _ & H2).
  specialize (H0 eq_refl). specialize (H1 dev_pixel eq_refl).
  destruct (H2 (le_n 2)) as [H2a H2b].
  rewrite H0, H1, H2a. repeat split.
  apply (Forall_inv (Forall_inv_tail H2b)).
Defined.

(** * Log capture *)




(** * Screen recording *)

(** C10, as stated, fails for a requested duration of zero: zero counts as
    no duration and 30 is passed, where clamping would give 1. *)
Lemma C10_counterexample :
  record_duration (Some 0%Z) = 30%Z /\
  clamped_request (Some 0%Z) = 1%Z /\
  record_duration (Some 0%Z) <> clamped_request (Some 0%Z).
Proof.
  repeat split. vm_compute. discriminate.
Qed.

(** C10, amended. The duration passed to the recorder lies in [1, 180]: it
    is 30 when no duration or a duration of zero is requested, and the
    requested duration clamped into [1, 180] otherwise.  The recording command
    carries it as its time limit and runs with a timeout five seconds longer. *)
Theorem C10_record_duration_amended :
  forall duration_arg : option Z,
    let duration := record_duration duration_arg in
    (1 <= duration <= 180)%Z /\
    record_duration None = 30%Z /\
    record_duration (Some 0%Z) = 30%Z /\
    (forall d, d <> 0%Z ->
       record_duration (Some d) = Z.min (Z.max d 1) 180) /\
    (forall py (w : os) adb tr serial bitrate remote_tmp out_path,
       dry_run adb = false ->
       exists after_run,
         fst (cmd_record py w adb (tr, Return serial) duration_arg
                         bitrate remote_tmp out_path) =
         (tr
          ++ PrintOut ("Запись экрана " ++ str_of_int duration ++ " c...")
          :: LogDebug
               ("ADB CMD: "
                ++ join " " (_build adb (screenrecord_args duration bitrate
                                           remote_tmp) (Some serial)))
          :: SubprocessRun
               (_build adb (screenrecord_args duration bitrate remote_tmp)
                       (Some serial))
               (duration + 5)
          :: after_run)%list) /\
    (forall bitrate remote_tmp,
       nth 2 (screenrecord_args duration bitrate remote_tmp) "" =
       "--time-limit=" ++ str_of_int duration).
Proof.
  intros duration_arg duration.
  assert (Hrange : (1 <= duration <= 180)%Z)
    by (unfold duration, record_duration; lia).
  split; [exact Hrange|].
  split; [reflexivity|]. split; [reflexivity|].
  split.
  { intros d Hd. unfold record_duration, int_or.
    apply Z.eqb_neq in Hd. now rewrite Hd. }
  split; [|reflexivity].
  intros py w adb tr serial bitrate remote_tmp out_path Hdry.
  unfold cmd_record. fold duration.
  set (args := screenrecord_args duration bitrate remote_tmp).
  assert (Hrun : exists tl res,
    run py w adb args (Some serial) true (Some (duration + 5)%Z) false =
      ((LogDebug ("ADB CMD: " ++ join " " (_build adb args (Some serial)))
        :: SubprocessRun (_build adb args (Some serial)) (duration + 5)
        :: tl)%list, res)).
  { unfold run. rewrite Hdry.
    assert (Ht : int_or (Some (duration + 5)%Z) (timeout adb) = (duration + 5)%Z).
    { unfold int_or. destruct (duration + 5 =? 0)%Z eqn:E; auto.
      apply Z.eqb_eq in E. lia. }
    rewrite Ht. do 2 bind_step. cbn [app]. eexists _, _. reflexivity. }
  destruct Hrun as (tl & res & Hrun).
  do 2 bind_step. unfold bind at 1. rewrite Hrun. cbn [fst snd].
  destruct res as [[[rc out] err]|code]; cbn [fst snd app];
    eexists; reflexivity.
Qed.

Lemma C10_record_duration_witness :
  exists after_run,
    fst (cmd_record (PyLib (fun s => s) (fun _ _ => ""))
           (fun _ _ => Completed 0 "" "")
           {| _adb_path := "adb"; dry_run := false; timeout := 30 |}
           ([], Return "emulator-5554") (Some 500%Z)
           "4000000" "/sdcard/r.mp4" "out.mp4") =
    (PrintOut "Запись экрана 180 c..."
     :: LogDebug "ADB CMD: adb -s emulator-5554 shell screenrecord --time-limit=180 --bit-rate=4000000 /sdcard/r.mp4"
     :: SubprocessRun
          ["adb"; "-s"; "emulator-5554"; "shell"; "screenrecord";
           "--time-limit=180"; "--bit-rate=4000000"; "/sdcard/r.mp4"] 185
     :: after_run)%list.
Proof.
  pose proof (@C10_record_duration_amended (Some 500%Z)) as H.
  cbv zeta in H. destruct H as (_ & _ & _ & _ & H & _).
  destruct (H (PyLib (fun s => s) (fun _ _ => ""))
              (fun _ _ => Completed 0 "" "")
              {| _adb_path := "adb"; dry_run := false; timeout := 30 |}
              [] "emulator-5554" "4000000" "/sdcard/r.mp4" "out.mp4" eq_refl)
    as (after_run & Heq).
  exists after_run. exact Heq.
Defined.

Close Scope string_scope.

(** * Device lines *)

Lemma drop_prefix_sound : forall lit s s',
  drop_prefix lit s = Some s' -> s = lit ++ s'.
Proof.
  induction lit as [|p lit IH]; intros s s' H; cbn [drop_prefix] in H.
  - now injection H as ->.
  - destruct s as [|c s]; [discriminate|].
    destruct (N.eqb_spec p c) as [->|]; [|discriminate].
    cbn [app]. f_equal. now apply IH.
Qed.

Lemma rx_rep_sound c greedy k : forall s gs res,
  rx_rep c greedy s gs k = Some res ->
  exists pre s',
    s = pre ++ s' /\ Forall (fun x => c x = true) pre /\ k s' gs = Some res.
Proof.
  induction s as [|x s IH]; intros gs res H; cbn [rx_rep] in H.
  - exists [], []. repeat split; auto.
  - assert (Hnow : k (x :: s) gs = Some res ->
                   exists pre s', x :: s = pre ++ s' /\
                     Forall (fun x => c x = true) pre /\ k s' gs = Some res).
    { intros Hk. exists [], (x :: s). repeat split; auto. }
    assert (Hlater : rx_rep c greedy s gs k = Some res -> c x = true ->
                     exists pre s', x :: s = pre ++ s' /\
                       Forall (fun x => c x = true) pre /\ k s' gs = Some res).
    { intros Hr Hc. destruct (IH _ _ Hr) as (pre & s' & -> & Hall & Hk).
      exists (x :: pre), s'. repeat split; auto. }
    destruct (c x) eqn:Hc; [|auto].
    destruct greedy.
    + destruct (rx_rep c true s gs k) as [r|] eqn:E; auto.
    + destruct (k (x :: s) gs) as [r|] eqn:E; auto.
Qed.

Lemma firstn_consumed {A} (pre s' : list A) :
  firstn (length (pre ++ s') - length s') (pre ++ s') = pre.
Proof.
  rewrite length_app, Nat.add_sub, firstn_app, Nat.sub_diag, firstn_all.
  cbn [firstn]. apply app_nil_r.
Qed.

(** What [rx_match] finds is a way to consume a prefix of the text. *)
Lemma rx_match_sound : forall r s gs k res,
  rx_match r s gs k = Some res ->
  exists pre s' gs',
    s = pre ++ s' /\ rx_sem r pre s' gs gs' /\ k s' gs' = Some res.
Proof.
  induction r as [lit|c m g|a IHa b IHb|a IHa b IHb|a IHa|name a IHa|];
    intros s gs k res H; cbn [rx_match] in H; cbn [rx_sem].
  - destruct (drop_prefix lit s) as [s'|] eqn:E; [|discriminate].
    apply drop_prefix_sound in E. exists lit, s', gs. auto.
  - destruct m.
    + destruct s as [|x s]; [discriminate|].
      destruct (c x) eqn:Hc; [|discriminate].
      apply rx_rep_sound in H. destruct H as (pre & s' & -> & Hall & Hk).
      exists (x :: pre), s', gs. repeat split; auto. discriminate.
    + apply rx_rep_sound in H. destruct H as (pre & s' & -> & Hall & Hk).
      exists pre, s', gs. repeat split; auto. discriminate.
  - apply IHa in H. destruct H as (p1 & s1 & g1 & -> & Ha & H).
    apply IHb in H. destruct H as (p2 & s2 & g2 & -> & Hb & H).
    exists (p1 ++ p2), s2, g2. rewrite <- app_assoc. repeat split; auto.
    exists p1, p2, g1. auto.
  - destruct (rx_match a s gs k) as [r|] eqn:E.
    + injection H as ->. apply IHa in E.
      destruct E as (pre & s' & gs' & ? & ? & ?). exists pre, s', gs'. auto.
    + apply IHb in H.
      destruct H as (pre & s' & gs' & ? & ? & ?). exists pre, s', gs'. auto.
  - destruct (rx_match a s gs k) as [r|] eqn:E.
    + injection H as ->. apply IHa in E.
      destruct E as (pre & s' & gs' & ? & ? & ?). exists pre, s', gs'. auto.
    + exists [], s, gs. auto.
  - apply IHa in H. destruct H as (pre & s' & g1 & -> & Ha & H).
    rewrite firstn_consumed in H.
    exists pre, s', ((name, pre) :: g1). repeat split; auto.
    exists g1. auto.
  - destruct s as [|c [|c' s]].
    + exists [], [], gs. repeat split; auto.
    + destruct (N.eqb_spec c 10) as [->|]; [|discriminate].
      exists [], [10%N], gs. repeat split; auto.
    + discriminate.
Qed.

Lemma not_space_false (s : pystr) :
  Forall (fun x => not_space x = true) s ->
  Forall (fun x => is_space x = false) s.
Proof.
  apply Forall_impl. intros x H. now apply negb_true_iff in H.
Qed.

(** X13. A line that the device pattern accepts starts with a serial without
    white space, followed by white space and one of the states [device],
    [offline] and [unauthorized]; the serial is never empty, a model found
    has no white space, and a transport number found is a non-empty run of
    decimal digits. *)
Theorem X13_device_line_fields :
  forall (is_dec : char -> bool) (l : pystr) (d : device_line),
    parse_device_line is_dec l = Some d ->
    dl_serial d <> [] /\
    Forall (fun c => is_space c = false) (dl_serial d) /\
    In (dl_state d) DEVICE_STATES /\
    (exists ws rest,
       l = dl_serial d ++ ws ++ dl_state d ++ rest /\
       ws <> [] /\ Forall (fun c => is_space c = true) ws) /\
    Forall (fun c => is_space c = false) (dl_model d) /\
    match dl_transport d with
    | Some t => t <> [] /\ Forall (fun c => is_dec c = true) t
    | None => True
    end.
Proof.
  intros is_dec l d H. unfold parse_device_line, re_match_groups in H.
  destruct (rx_match _ l [] _) as [gs|] eqn:E; [|discriminate].
  injection H as <-.
  apply rx_match_sound in E. destruct E as (pre & s' & gs' & -> & Hsem & Hk).
  injection Hk as ->.
  unfold RE_DEVICES_LINE in Hsem. cbn [rx_sem] in Hsem.
  repeat match type of Hsem with
         | exists _, _ => destruct Hsem as (? & Hsem)
         end.
  repeat match goal with
         | H : _ /\ _ |- _ => destruct H
         | H : exists _, _ |- _ => destruct H
         end.
  subst.
  repeat match goal with
         | H : _ \/ _ |- _ => destruct H
         | H : _ /\ _ |- _ => destruct H
         | H : exists _, _ |- _ => destruct H
         end; subst;
  cbn [dl_serial dl_state dl_model dl_transport group G_SERIAL G_STATE
       G_MODEL G_TRANSPORT Nat.eqb];
  repeat match goal with
         | H : true = true -> _ |- _ => specialize (H eq_refl)
         end;
  (split; [assumption|]);
  (split; [now apply not_space_false|]);
  (split; [unfold DEVICE_STATES; cbn [In]; tauto|]);
  (split;
   [match goal with
    | Hs : Forall (fun x => is_space x = true) ?ws, Hne : ?ws <> [] |- _ =>
        exists ws; eexists; split;
        [rewrite <- !app_assoc; reflexivity | split; assumption]
    end|]);
  (split; [try (now apply not_space_false); constructor|]);
  try exact I; split; assumption.
Qed.

Lemma X13_device_line_witness :
  exists d,
    parse_device_line (fun c => (48 <=? c) && (c <=? 57))%N
      (codes "emulator-5554   device product:sdk model:Pixel_6 transport_id:12")
      = Some d /\
    dl_serial d = codes "emulator-5554" /\
    In (dl_state d) DEVICE_STATES /\
    dl_model d = codes "Pixel_6" /\
    dl_transport d = Some (codes "12").
Proof.
  eexists. split; [vm_compute; reflexivity|].
  pose proof (@X13_device_line_fields
                (fun c => (48 <=? c) && (c <=? 57))%N
                (codes "emulator-5554   device product:sdk model:Pixel_6 transport_id:12")
                _ eq_refl) as H.
  destruct H as (_ & _ & Hst & _).
  repeat split; [exact Hst].
Defined.

Lemma lstrip_split : forall s,
  exists pre, s = pre ++ lstrip s /\ Forall (fun c => is_space c = true) pre.
Proof.
  induction s as [|c s (pre & IH & Hpre)]; [now exists []|].
  cbn [lstrip]. destruct (is_space c) eqn:E.
  - exists (c :: pre). split; [cbn [app]; now f_equal | now constructor].
  - now exists [].
Qed.

Lemma lstrip_head : forall s c rest,
  lstrip s = c :: rest -> is_space c = false.
Proof.
  induction s as [|x s IH]; intros c rest H; [discriminate|].
  cbn [lstrip] in H. destruct (is_space x) eqn:E.
  - eapply IH; eauto.
  - now injection H as <- _.
Qed.

Lemma lstrip_fixed : forall s c rest,
  s = c :: rest -> is_space c = false -> lstrip s = s.
Proof.
  intros s c rest -> H. cbn [lstrip]. now rewrite H.
Qed.

(** A text with a character that is no white space at its end keeps that
    end when white space is stripped from its front. *)
Lemma lstrip_keeps_last : forall s c,
  is_space c = false -> exists pre, lstrip (s ++ [c]) = pre ++ [c].
Proof.
  induction s as [|x s IH]; intros c Hc.
  - exists []. cbn [app lstrip]. now rewrite Hc.
  - cbn [app lstrip]. destruct (is_space x).
    + now apply IH.
    + now exists (x :: s).
Qed.

(** A stripped text is empty or has no white space at either end. *)
Lemma py_strip_ends s :
  py_strip s = [] \/
  exists first middle last,
    (py_strip s = [first] /\ last = first /\ middle = []
     \/ py_strip s = first :: middle ++ [last]) /\
    is_space first = false /\ is_space last = false.
Proof.
  unfold py_strip. destruct (lstrip s) as [|c t] eqn:E; [now left|].
  pose proof (lstrip_head _ E) as Hc. right.
  (* the reversed text ends with [c], which stripping keeps *)
  cbn [rev]. destruct (lstrip_keeps_last (rev t) c Hc) as (pre & Hpre).
  rewrite Hpre, rev_app_distr. cbn [rev app].
  destruct pre as [|y pre'].
  - exists c, [], c. auto.
  - cbn [app] in Hpre. pose proof (lstrip_head _ Hpre) as Hy.
    exists c, (rev pre'), y. cbn [rev]. split; [right; reflexivity | auto].
Qed.

Lemma Forall_lstrip (P : char -> Prop) s : Forall P s -> Forall P (lstrip s).
Proof.
  intros H. destruct (lstrip_split s) as (pre & Heq & _).
  rewrite Heq in H. apply Forall_app in H. tauto.
Qed.

Lemma Forall_py_strip (P : char -> Prop) s : Forall P s -> Forall P (py_strip s).
Proof.
  intros H. unfold py_strip.
  apply Forall_rev, Forall_lstrip, Forall_rev, Forall_lstrip, H.
Qed.

Lemma splitlines_from_no_break_bounded : forall n s cur,
  (length s <= n)%nat ->
  Forall (fun c => is_linebreak c = false) cur ->
  Forall (Forall (fun c => is_linebreak c = false)) (splitlines_from cur s).
Proof.
  induction n as [|n IH]; intros s cur Hlen Hcur.
  - destruct s; [|cbn [length] in Hlen; lia].
    cbn [splitlines_from]. destruct cur; repeat constructor.
    now apply Forall_rev.
  - destruct s as [|c s]; cbn [splitlines_from].
    + destruct cur; repeat constructor. now apply Forall_rev.
    + cbn [length] in Hlen. destruct (is_linebreak c) eqn:Eb.
      * destruct (c =? 13)%N.
        -- destruct s as [|c' s']; [repeat constructor; now apply Forall_rev|].
           cbn [length] in Hlen.
           destruct (c' =? 10)%N;
             (constructor; [now apply Forall_rev | apply IH; [cbn [length]; lia | constructor]]).
        -- constructor; [now apply Forall_rev | apply IH; [lia | constructor]].
      * apply IH; [lia | now constructor].
Qed.

Lemma splitlines_no_break s :
  Forall (Forall (fun c => is_linebreak c = false)) (splitlines s).
Proof.
  apply (@splitlines_from_no_break_bounded (length s)); [lia | constructor].
Qed.

(** X16. The lines of the device list that are parsed are stripped lines of
    the output: none is empty, none begins or ends with white space, none
    holds a line break, and none starts with the heading
    [list of devices], whatever the case of its letters. *)
Theorem X16_device_lines_are_clean : forall (out l : pystr),
  In l (device_lines out) ->
  (exists raw, In raw (splitlines out) /\ l = py_strip raw) /\
  l <> [] /\
  (exists first middle last,
     (l = [first] \/ l = first :: middle ++ [last]) /\
     is_space first = false /\ is_space last = false) /\
  Forall (fun c => is_linebreak c = false) l /\
  lower_startswith (codes "list of devices") l = false.
Proof.
  intros out l Hin. unfold device_lines in Hin.
  apply filter_In in Hin. destruct Hin as [Hin Hhead].
  apply negb_true_iff in Hhead.
  apply in_map_iff in Hin. destruct Hin as (raw & <- & Hraw).
  apply filter_In in Hraw. destruct Hraw as [Hraw Hne].
  split; [now exists raw|].
  split; [destruct (py_strip raw); [discriminate | discriminate]|].
  split.
  { destruct (py_strip_ends raw) as [H0|(first & middle & last & Hs & H1 & H2)].
    - rewrite H0 in Hne. discriminate.
    - exists first, middle, last.
      destruct Hs as [(Hs & -> & ->)|Hs]; rewrite Hs; auto. }
  split; [|exact Hhead].
  apply Forall_py_strip.
  pose proof (splitlines_no_break out) as Hall.
  rewrite Forall_forall in Hall. now apply Hall.
Qed.

Lemma X16_device_lines_witness :
  device_lines
    (codes "List of devices attached" ++ [10%N]
     ++ codes "emulator-5554  device" ++ [13; 10; 10]%N ++ codes "  ")
  = [codes "emulator-5554  device"] /\
  codes "emulator-5554  device" <> [].
Proof.
  split; [vm_compute; reflexivity|].
  assert (Hin : In (codes "emulator-5554  device")
                   (device_lines
                      (codes "List of devices attached" ++ [10%N]
                       ++ codes "emulator-5554  device" ++ [13; 10; 10]%N
                       ++ codes "  "))) by (vm_compute; auto).
  exact (proj1 (proj2 (@X16_device_lines_are_clean _ _ Hin))).
Defined.

(** * Escaping of input text *)

(** What [mapping.get(ch, ch)] yields: the character itself when it is not
    special, and otherwise [%s] for a space or a backslash and the character. *)
Lemma mapping_get_cases ch :
  (is_special ch = false /\ mapping_get ch SANITIZE_MAPPING = [ch]) \/
  (ch = 32%N /\ mapping_get ch SANITIZE_MAPPING = [37; 115]%N) \/
  (is_special ch = true /\ ch <> 32%N /\
   mapping_get ch SANITIZE_MAPPING = [92%N; ch]).
Proof.
  unfold is_special, SANITIZE_MAPPING.
  cbn [mapping_get existsb fst].
  repeat match goal with
         | |- context [(?k =? ch)%N] =>
             destruct (N.eqb_spec k ch) as [<-|?];
             [vm_compute; (right; left; split; reflexivity) ||
                          (right; right; repeat split; discriminate)
             | cbn [orb]]
         end.
  left. split; reflexivity.
Qed.

Lemma not_special_plain ch :
  is_special ch = false -> ch <> 92%N /\ ch <> 37%N /\ ch <> 32%N.
Proof.
  intros H. repeat split; intros ->; vm_compute in H; discriminate.
Qed.

(** X1. The escaped text can be read back: [%s] and the backslash pairs
    decode to the original text, so two different texts are never sent as
    the same payload. *)
Theorem X1_sanitize_round_trip :
  (forall text, unsanitize (sanitize_input_text text) = text) /\
  (forall a b, sanitize_input_text a = sanitize_input_text b -> a = b).
Proof.
  assert (RT : forall text, unsanitize (sanitize_input_text text) = text).
  { induction text as [|ch text IH]; [reflexivity|].
    unfold sanitize_input_text in *. cbn [flat_map].
    destruct (mapping_get_cases ch) as [[Hs ->]|[[-> ->]|(Hs & Hne & ->)]].
    - apply not_special_plain in Hs. destruct Hs as (H1 & H2 & _).
      cbn [app]. cbn [unsanitize].
      destruct (flat_map _ text) as [|x rest] eqn:E.
      + rewrite <- IH. reflexivity.
      + apply N.eqb_neq in H1. apply N.eqb_neq in H2. rewrite H1, H2.
        cbn [andb]. now rewrite IH.
    - cbn [app unsanitize]. change (37 =? 92)%N with false.
      change ((37 =? 37) && (115 =? 115))%N with true. cbv iota.
      now rewrite IH.
    - cbn [app unsanitize]. rewrite N.eqb_refl. now rewrite IH. }
  split; [exact RT|].
  intros a b H. rewrite <- (RT a), <- (RT b). now rewrite H.
Qed.

Lemma sanitize_length text :
  length (sanitize_input_text text) =
  (length text + length (filter is_special text))%nat.
Proof.
  induction text as [|ch text IH]; [reflexivity|].
  unfold sanitize_input_text in *. cbn [flat_map filter].
  rewrite length_app, IH.
  destruct (mapping_get_cases ch) as [[Hs ->]|[[-> ->]|(Hs & Hne & ->)]].
  - rewrite Hs. cbn [length]. lia.
  - change (is_special 32%N) with true. cbn [length]. lia.
  - rewrite Hs. cbn [length]. lia.
Qed.

Lemma sanitize_no_space text : ~ In 32%N (sanitize_input_text text).
Proof.
  induction text as [|ch text IH]; [tauto|].
  unfold sanitize_input_text in *. cbn [flat_map]. intros Hin.
  apply in_app_or in Hin. destruct Hin as [Hin|Hin]; [|tauto].
  destruct (mapping_get_cases ch) as [[Hs Hm]|[[-> Hm]|(Hs & Hne & Hm)]];
    rewrite Hm in Hin; cbn [In] in Hin.
  - apply not_special_plain in Hs. intuition.
  - intuition discriminate.
  - intuition discriminate.
Qed.

(** X2. The escaped text never contains a space, is the text itself exactly
    when the text has no special character, joins piecewise, and grows by one
    character for every special character of the text, so to at most twice
    the length. *)
Theorem X2_sanitize_shape : forall text : pystr,
  ~ In 32%N (sanitize_input_text text) /\
  (sanitize_input_text text = text <->
   forallb (fun c => negb (is_special c)) text = true) /\
  (forall more, sanitize_input_text (text ++ more) =
                sanitize_input_text text ++ sanitize_input_text more) /\
  length (sanitize_input_text text) =
    (length text + length (filter is_special text))%nat /\
  (length text <= length (sanitize_input_text text) <= 2 * length text)%nat.
Proof.
  intros text.
  pose proof (sanitize_length text) as Hlen.
  assert (Hfilter : (length (filter is_special text) <= length text)%nat)
    by apply filter_length_le.
  split; [apply sanitize_no_space|].
  split.
  { split.
    - intros Heq. rewrite Heq in Hlen.
      assert (H0 : filter is_special text = []).
      { destruct (filter is_special text); [reflexivity | cbn [length] in Hlen; lia]. }
      apply forallb_forall. intros c Hc.
      destruct (is_special c) eqn:E; [|reflexivity].
      assert (Hin : In c (filter is_special text)) by (apply filter_In; auto).
      rewrite H0 in Hin. contradiction.
    - clear. induction text as [|ch text IH]; [reflexivity|].
      cbn [forallb]. intros H. apply andb_true_iff in H. destruct H as [H1 H2].
      apply negb_true_iff in H1.
      unfold sanitize_input_text in *. cbn [flat_map]. rewrite (IH H2).
      destruct (mapping_get_cases ch) as [[Hs ->]|[[-> _]|(Hs & _)]];
        [reflexivity | discriminate H1 | congruence]. }
  split.
  { intros more. unfold sanitize_input_text. apply flat_map_app. }
  split; [exact Hlen | lia].
Qed.

(** * The table printer *)

Lemma length_ljust s width :
  (length s <= width)%nat -> length (ljust s width) = width.
Proof.
  intros H. unfold ljust. rewrite length_app, repeat_length. lia.
Qed.

Lemma column_width_ge_from rows h : forall w,
  (w <= fold_left (fun w r => Nat.max w (length (row_get h r))) rows w)%nat /\
  forall r, In r rows ->
    (length (row_get h r)
     <= fold_left (fun w r => Nat.max w (length (row_get h r))) rows w)%nat.
Proof.
  induction rows as [|r0 rows IH]; intros w; cbn [fold_left].
  - split; [lia | intros r []].
  - destruct (IH (Nat.max w (length (row_get h r0)))) as [H1 H2]. split.
    + lia.
    + intros r [->|Hin]; [lia | now apply H2].
Qed.

Lemma column_width_attained_from rows h : forall w,
  fold_left (fun w r => Nat.max w (length (row_get h r))) rows w = w \/
  exists r, In r rows /\
    fold_left (fun w r => Nat.max w (length (row_get h r))) rows w
    = length (row_get h r).
Proof.
  induction rows as [|r0 rows IH]; intros w; cbn [fold_left].
  - now left.
  - destruct (IH (Nat.max w (length (row_get h r0)))) as [H|(r & Hr & H)].
    + rewrite H. destruct (Nat.max_dec w (length (row_get h r0))) as [E|E].
      * now left.
      * right. exists r0. split; [now left | exact E].
    + right. exists r. split; [now right | exact H].
Qed.

Lemma length_pyjoin sep : forall parts,
  length (pyjoin sep parts) =
  (list_sum (map (@length char) parts) + length sep * (length parts - 1))%nat.
Proof.
  induction parts as [|x parts IH]; [cbn; lia|].
  destruct parts as [|y parts].
  - cbn. lia.
  - change (pyjoin sep (x :: y :: parts))
      with (x ++ sep ++ pyjoin sep (y :: parts)).
    rewrite !length_app, IH. cbn [map list_sum length Nat.sub].
    rewrite ?Nat.sub_0_r, Nat.mul_succ_r. unfold list_sum. cbn [fold_right].
    lia.
Qed.

Lemma table_line_width sep (cells : list pystr) (widths : list nat) :
  length sep = 3%nat -> map (@length char) cells = widths ->
  length (pyjoin sep cells) = table_width widths.
Proof.
  intros Hsep <-. rewrite length_pyjoin. unfold table_width.
  now rewrite Hsep, length_map.
Qed.

Lemma pyjoin_cons sep x parts :
  parts <> [] -> pyjoin sep (x :: parts) = x ++ sep ++ pyjoin sep parts.
Proof.
  destruct parts; [congruence | reflexivity].
Qed.

Lemma skipn_length_app {A} (l1 l2 : list A) n :
  skipn (length l1 + n) (l1 ++ l2) = skipn n l2.
Proof.
  induction l1 as [|a l1 IH]; [reflexivity | exact IH].
Qed.

Lemma firstn_length_app {A} (l1 l2 : list A) :
  firstn (length l1) (l1 ++ l2) = l1.
Proof.
  induction l1 as [|a l1 IH]; [reflexivity | cbn; now rewrite IH].
Qed.

(** In a joined line every part stands at the place that the lengths of the
    parts in front of it give, and is followed by the separator unless it is
    the last. *)
Lemma slice_pyjoin sep : forall cells i c,
  nth_error cells i = Some c ->
  let start :=
    (list_sum (firstn i (map (@length char) cells)) + length sep * i)%nat in
  slice start (length c) (pyjoin sep cells) = c /\
  ((S i < length cells)%nat ->
   slice (start + length c) (length sep) (pyjoin sep cells) = sep).
Proof.
  induction cells as [|x rest IH]; intros i c Hnth; [now destruct i|].
  destruct i as [|i]; cbn [nth_error] in Hnth.
  - injection Hnth as ->. cbn [firstn map list_sum fold_right].
    rewrite Nat.mul_0_r. cbn [Nat.add]. unfold slice. split.
    + destruct rest as [|y rest].
      * cbn [pyjoin skipn]. apply firstn_all.
      * rewrite pyjoin_cons by discriminate. cbn [skipn].
        apply firstn_length_app.
    + intros Hlen. destruct rest as [|y rest]; [cbn in Hlen; lia|].
      rewrite pyjoin_cons by discriminate.
      rewrite <- (Nat.add_0_r (length c)), skipn_length_app. cbn [skipn].
      apply firstn_length_app.
  - assert (Hne : rest <> []) by (intros ->; now destruct i).
    destruct (IH i c Hnth) as [H1 H2]. cbv zeta in H1, H2.
    rewrite pyjoin_cons by exact Hne.
    cbn [map firstn]. unfold slice in *.
    assert (Hsum : forall l : list nat,
              list_sum (length x :: l) = (length x + list_sum l)%nat)
      by reflexivity.
    rewrite Hsum. split.
    + replace (length x + list_sum (firstn i (map (@length char) rest))
               + length sep * S i)%nat
        with (length x + (length sep
                + (list_sum (firstn i (map (@length char) rest))
                   + length sep * i)))%nat by lia.
      rewrite skipn_length_app, skipn_length_app. exact H1.
    + intros Hlen. cbn [length] in Hlen.
      replace (length x + list_sum (firstn i (map (@length char) rest))
               + length sep * S i + length c)%nat
        with (length x + (length sep
                + (list_sum (firstn i (map (@length char) rest))
                   + length sep * i + length c)))%nat by lia.
      rewrite skipn_length_app, skipn_length_app. apply H2. lia.
Qed.

(** The cell of column [i] in a line of a table whose cells have the widths
    of their columns. *)
Lemma table_cell sep (f : pystr -> pystr) (w : pystr -> nat) headers i h :
  length sep = 3%nat ->
  (forall h', length (f h') = w h') ->
  nth_error headers i = Some h ->
  slice (column_offset (map w headers) i) (w h) (pyjoin sep (map f headers))
    = f h /\
  ((S i < length headers)%nat ->
   slice (column_offset (map w headers) i + w h) 3
         (pyjoin sep (map f headers)) = sep).
Proof.
  intros Hsep Hlen Hnth.
  pose proof (slice_pyjoin sep (map f headers) i
                (map_nth_error f i headers Hnth)) as H.
  cbv zeta in H. rewrite map_map, Hsep, Hlen, length_map in H.
  unfold column_offset.
  rewrite (map_ext (fun x => length (f x)) w Hlen) in H.
  exact H.
Qed.

(** X12. Without rows the table printer prints the single line for an empty
    table.  Otherwise it prints one line for the header, one for the rule and
    one for every row, all of the same length.  The width of a column is the
    greatest length among its name and its texts.  In every line a column
    starts at the same place: there the header line holds the name, the rule
    as many dashes as the column is wide, and the line of a row the text of
    the row for that column (nothing for a missing one), each followed by
    spaces up to the width of the column, so nothing is cut; between two
    columns stands the separator. *)
Theorem X12_print_table_aligned : forall rows : list row,
  let headers := map fst (hd [] rows) in
  let width := column_width rows in
  let widths := map width headers in
  let lines := print_table rows in
  print_table [] = [EMPTY_TABLE] /\
  (rows <> [] ->
   length lines = (2 + length rows)%nat /\
   Forall (fun line => length line = table_width widths) lines) /\
  (forall h,
     (length h <= width h)%nat /\
     (forall r, In r rows -> (length (row_get h r) <= width h)%nat) /\
     (width h = length h \/
      exists r, In r rows /\ width h = length (row_get h r))) /\
  (forall i h, nth_error headers i = Some h ->
     let column line := slice (column_offset widths i) (width h) line in
     let gap line := slice (column_offset widths i + width h) 3 line in
     (exists head rule,
        nth_error lines 0 = Some head /\ nth_error lines 1 = Some rule /\
        column head = h ++ repeat 32%N (width h - length h) /\
        column rule = repeat 45%N (width h) /\
        ((S i < length headers)%nat ->
         gap head = codes " | " /\ gap rule = codes "-+-")) /\
     (forall k r, nth_error rows k = Some r ->
        exists line,
          nth_error lines (2 + k) = Some line /\
          column line =
            row_get h r ++ repeat 32%N (width h - length (row_get h r)) /\
          ((S i < length headers)%nat -> gap line = codes " | "))) /\
  print_table table_sample =
    map codes [ "serial        | state ";
                "--------------+-------";
                "emulator-5554 | device";
                "ZZ            |       " ]%string.
Proof.
  intros rows headers width widths lines.
  split; [reflexivity|].
  assert (Hge : forall h, (length h <= width h)%nat /\
                          forall r, In r rows ->
                            (length (row_get h r) <= width h)%nat).
  { intros h. unfold width, column_width. apply column_width_ge_from. }
  split.
  { intros Hne. unfold lines. destruct rows as [|first rest]; [congruence|].
    cbn [hd] in headers. unfold print_table. fold headers.
    split; [cbn [length]; now rewrite length_map|].
    constructor; [|constructor].
    + apply table_line_width; [reflexivity|]. unfold widths.
      rewrite map_map. apply map_ext_in. intros h _.
      apply length_ljust. apply Hge.
    + apply table_line_width; [reflexivity|]. unfold widths.
      rewrite map_map. apply map_ext. intros h. apply repeat_length.
    + apply Forall_forall. intros line Hin. apply in_map_iff in Hin.
      destruct Hin as (r & <- & Hr).
      apply table_line_width; [reflexivity|]. unfold widths.
      rewrite map_map. apply map_ext_in. intros h _.
      apply length_ljust. now apply Hge. }
  split.
  { intros h. destruct (Hge h) as [H1 H2]. repeat split; auto.
    unfold width, column_width. apply column_width_attained_from. }
  split; [|vm_compute; reflexivity].
  intros i h Hnth column gap.
  destruct rows as [|first rest]; [now destruct i|].
  cbn [hd] in headers. unfold lines, print_table. fold headers. fold width.
  split.
  - eexists _, _. split; [reflexivity|]. split; [reflexivity|].
    destruct (table_cell (codes " | ") (fun h => ljust h (width h)) width
                headers i eq_refl
                (fun h' => @length_ljust _ _ (proj1 (Hge h'))) Hnth)
      as [H1 H2].
    destruct (table_cell (codes "-+-") (fun h => repeat 45%N (width h)) width
                headers i eq_refl
                (fun h' => repeat_length 45%N (width h')) Hnth)
      as [H3 H4].
    unfold column, gap, widths.
    split; [exact H1|]. split; [exact H3|].
    intros Hlt. split; [now apply H2 | now apply H4].
  - intros k r Hr.
    exists (pyjoin (codes " | ")
              (map (fun h => ljust (row_get h r) (width h)) headers)).
    split.
    { cbn [Nat.add nth_error].
      exact (map_nth_error
               (fun r => pyjoin (codes " | ")
                           (map (fun h => ljust (row_get h r) (width h))
                                headers)) k (first :: rest) Hr). }
    pose proof (nth_error_In _ _ Hr) as Hin.
    destruct (table_cell (codes " | ")
                (fun h => ljust (row_get h r) (width h)) width headers i
                eq_refl
                (fun h' => @length_ljust _ _ (proj2 (Hge h') r Hin)) Hnth)
      as [H1 H2].
    unfold column, gap, widths. split; [exact H1|]. exact H2.
Qed.

(** * Texts as UTF-8 *)








(** * More about the runner, device selection and recording *)

Open Scope string_scope.

Lemma bind_return {A B} tr (a : A) (k : A -> prog B) :
  bind (tr, Return a) k = ((tr ++ fst (k a))%list, snd (k a)).
Proof. reflexivity. Qed.

Lemma bind_system_exit {A B} tr code (k : A -> prog B) :
  bind (tr, SystemExit code) k = (tr, SystemExit code).
Proof. reflexivity. Qed.

(** A process that completes makes [run] return what it produced. *)
Lemma run_completed py (w : os) self args serial capture timeout_arg rc out err :
  dry_run self = false ->
  w (_build self args serial) (int_or timeout_arg (timeout self))
    = Completed rc out err ->
  run py w self args serial capture timeout_arg false =
    ([LogDebug ("ADB CMD: " ++ join " " (_build self args serial));
      SubprocessRun (_build self args serial)
                    (int_or timeout_arg (timeout self))],
     Return (rc, if capture then out else "", if capture then err else "")).
Proof.
  intros Hdry Hw. unfold run. rewrite Hdry, Hw. reflexivity.
Qed.

(** The trace of [run] up to the point where the process ends. *)
Lemma run_shape py (w : os) self args serial capture timeout_arg check :
  dry_run self = false ->
  exists tl res,
    run py w self args serial capture timeout_arg check =
      ((LogDebug ("ADB CMD: " ++ join " " (_build self args serial))
        :: SubprocessRun (_build self args serial)
                         (int_or timeout_arg (timeout self))
        :: tl)%list, res) /\
    filter is_spawn tl = [] /\
    ((exists v, res = Return v) \/ res = SystemExit 1 \/ res = SystemExit 2
     \/ res = SystemExit 5) /\
    (res = SystemExit 2 <->
     w (_build self args serial) (int_or timeout_arg (timeout self))
       = FileNotFoundError) /\
    (res = SystemExit 5 <->
     w (_build self args serial) (int_or timeout_arg (timeout self))
       = TimeoutExpired).
Proof.
  intros Hdry. unfold run. rewrite Hdry.
  destruct (w (_build self args serial) (int_or timeout_arg (timeout self)))
    as [rc out err| | |e] eqn:Hw;
    [destruct (check && negb (rc =? 0)%Z)| | |];
    unfold bind, emit, ret, die; cbn [fst snd app];
    (eexists _, _; split; [reflexivity|]; cbn [filter is_spawn];
     repeat split; try (intro; discriminate); auto; eauto).
Qed.

(** X3. A call of the runner either returns or exits with code 1, 2 or 5:
    2 exactly when the executable is missing, 5 exactly when the process
    timed out.  It starts one process outside dry-run mode and none in it.
    A process that ends with any status, zero or not, makes the call return
    that status when [check] is off, with empty outputs when they are not
    captured. *)
Theorem X3_run_outcomes :
  forall py (w : os) self args serial capture timeout_arg check,
    let r := run py w self args serial capture timeout_arg check in
    let cmd := _build self args serial in
    let t := int_or timeout_arg (timeout self) in
    ((exists v, snd r = Return v) \/ snd r = SystemExit 1
     \/ snd r = SystemExit 2 \/ snd r = SystemExit 5) /\
    filter is_spawn (fst r) =
      (if dry_run self then [] else [SubprocessRun cmd t]) /\
    (snd r = SystemExit 2 <-> dry_run self = false /\ w cmd t = FileNotFoundError) /\
    (snd r = SystemExit 5 <-> dry_run self = false /\ w cmd t = TimeoutExpired) /\
    (forall rc out err,
       dry_run self = false -> check = false -> w cmd t = Completed rc out err ->
       snd r = Return (rc, if capture then out else "",
                       if capture then err else "")).
Proof.
  intros py w self args serial capture timeout_arg check r cmd t.
  destruct (dry_run self) eqn:Hdry.
  - unfold r, run. rewrite Hdry. cbn [fst snd bind emit ret app filter is_spawn].
    repeat split; try (intro; discriminate); eauto;
      try discriminate; intros [Hf _]; discriminate.
  - destruct (@run_shape py w self args serial capture timeout_arg check Hdry)
      as (tl & res & Hr & Htl & Hcodes & H2 & H5).
    fold r cmd t in Hr, H2, H5. rewrite Hr. cbn [fst snd filter is_spawn].
    rewrite Htl. repeat split; auto; try tauto.
    intros rc out err _ -> Hw.
    pose proof (@run_completed py w self args serial capture timeout_arg
                  rc out err Hdry Hw) as Hc.
    fold r in Hc. rewrite Hr in Hc. now injection Hc.
Qed.

Lemma find_online_serial p devs :
  find (fun d => String.eqb (serial d) p) (filter is_online devs) =
  find (fun d => is_online d && String.eqb (serial d) p) devs.
Proof.
  induction devs as [|d devs IH]; [reflexivity|].
  cbn [filter find]. destruct (is_online d); cbn [find andb]; now rewrite IH.
Qed.

(** X4. With a serial given, device selection returns that serial when a
    device with it is in state [device], however many other devices there
    are, and exits with code 3 when that device is missing or in another
    state. *)
Theorem X4_pick_with_serial :
  forall (tr : list event) (devs : list DeviceInfo) (p : string),
    p <> "" ->
    let r := pick (tr, Return devs) (Some p) in
    let msg := "Устройство с serial " ++ p
               ++ " не найдено или не в состоянии 'device'." in
    if existsb (fun d => is_online d && String.eqb (serial d) p) devs
    then r = (tr, Return p)
    else r = ((tr ++ [LogError msg; PrintErr ("Ошибка: " ++ msg)])%list,
              SystemExit 3).
Proof.
  intros tr devs p Hp r msg.
  assert (Ht : truthy (Some p) = true).
  { cbn [truthy]. apply negb_true_iff. now apply String.eqb_neq. }
  unfold r, pick. rewrite bind_return, Ht, find_online_serial.
  destruct (find _ devs) as [d|] eqn:Hf.
  - pose proof (find_some _ _ Hf) as [Hin Hd].
    apply andb_true_iff in Hd. destruct Hd as [_ Hs].
    apply String.eqb_eq in Hs.
    assert (He : existsb (fun d => is_online d && String.eqb (serial d) p) devs
                 = true).
    { apply existsb_exists. exists d. split; auto.
      pose proof (find_some _ _ Hf) as [_ Hd]. exact Hd. }
    rewrite He. cbn [ret fst snd]. now rewrite app_nil_r, Hs.
  - assert (He : existsb (fun d => is_online d && String.eqb (serial d) p) devs
                 = false).
    { destruct (existsb _ devs) eqn:E; [|reflexivity].
      apply existsb_exists in E. destruct E as (d & Hin & Hd).
      now rewrite (find_none _ _ Hf d Hin) in Hd. }
    rewrite He. reflexivity.
Qed.

Lemma X4_pick_with_serial_witness :
  pick ([], Return [dev_offline; dev_pixel; dev_unnamed]) (Some "0A1B2C")
    = ([], Return "0A1B2C") /\
  snd (pick ([], Return [dev_offline; dev_pixel]) (Some "ZZ")) = SystemExit 3.
Proof.
  assert (H1 : "0A1B2C" <> "") by discriminate.
  assert (H2 : "ZZ" <> "") by discriminate.
  pose proof (@X4_pick_with_serial [] [dev_offline; dev_pixel; dev_unnamed]
                "0A1B2C" H1) as A.
  pose proof (@X4_pick_with_serial [] [dev_offline; dev_pixel] "ZZ" H2) as B.
  cbv zeta in A, B. split; [exact A|]. cbn [existsb] in B.
  change (is_online dev_offline && String.eqb (serial dev_offline) "ZZ"
          || (is_online dev_pixel && String.eqb (serial dev_pixel) "ZZ" || false))
    with false in B.
  now rewrite B.
Defined.

(** X5. Device selection never hands out a device that is not in state
    [device]: a serial it returns belongs to a listed device in that state,
    and is the requested one when a serial was requested.  When listing the
    devices fails, selection fails the same way and adds nothing; when the
    listing succeeds, selection can only fail with code 3. *)
Theorem X5_pick_is_safe :
  forall (list_devices : prog (list DeviceInfo)) (preferred : option string),
    let r := pick list_devices preferred in
    (forall s, snd r = Return s ->
       exists devs d,
         snd list_devices = Return devs /\ In d devs /\
         is_online d = true /\ serial d = s /\
         fst r = fst list_devices /\
         (truthy preferred = true -> preferred = Some s)) /\
    (forall code, snd list_devices = SystemExit code ->
       r = (fst list_devices, SystemExit code)) /\
    (forall devs code, snd list_devices = Return devs ->
       snd r = SystemExit code -> code = 3%Z).
Proof.
  intros [tr [devs|c]] preferred r; unfold r, pick;
    [rewrite bind_return | rewrite bind_system_exit]; cbn [fst snd].
  - assert (Hno : forall s,
      snd (match filter is_online devs with
           | [] => die 3 no_device_msg
           | d :: _ =>
               if (1 <? length (filter is_online devs))%nat
               then die 3 (several_devices_msg (filter is_online devs))
               else ret (serial d)
           end) = Return s ->
      exists d, In d devs /\ is_online d = true /\ serial d = s /\
        (tr ++ fst (match filter is_online devs with
                    | [] => @die string 3 no_device_msg
                    | d :: _ =>
                        if (1 <? length (filter is_online devs))%nat
                        then die 3 (several_devices_msg (filter is_online devs))
                        else ret (serial d)
                    end))%list = tr).
    { intros s. destruct (filter is_online devs) as [|d rest] eqn:Ef;
        [discriminate|].
      destruct (1 <? length (d :: rest))%nat; [discriminate|].
      cbn [ret snd fst]. intros H. injection H as <-.
      assert (Hin : In d (filter is_online devs)) by (rewrite Ef; now left).
      apply filter_In in Hin. exists d. rewrite app_nil_r. tauto. }
    assert (Hno3 : forall code,
      snd (match filter is_online devs with
           | [] => @die string 3 no_device_msg
           | d :: _ =>
               if (1 <? length (filter is_online devs))%nat
               then die 3 (several_devices_msg (filter is_online devs))
               else ret (serial d)
           end) = SystemExit code -> code = 3%Z).
    { intros code. destruct (filter is_online devs) as [|d rest].
      - cbn [die snd]. congruence.
      - destruct (1 <? length (d :: rest))%nat; cbn [die ret snd]; congruence. }
    repeat split.
    + intros s Hs. destruct preferred as [p|].
      * destruct (truthy (Some p)) eqn:Ht.
        -- destruct (find _ (filter is_online devs)) as [d|] eqn:Hf;
             [|discriminate].
           cbn [ret snd] in Hs. injection Hs as <-.
           pose proof (find_some _ _ Hf) as [Hin Hd].
           apply filter_In in Hin. apply String.eqb_eq in Hd.
           exists devs, d. cbn [ret fst]. rewrite app_nil_r.
           repeat split; try tauto. intros _. now rewrite Hd.
        -- destruct (Hno s Hs) as (d & ? & ? & ? & ?).
           exists devs, d. repeat split; auto. discriminate.
      * destruct (Hno s Hs) as (d & ? & ? & ? & ?).
        exists devs, d. repeat split; auto. discriminate.
    + discriminate.
    + intros devs' code _ Hc. destruct preferred as [p|].
      * destruct (truthy (Some p)).
        -- destruct (find _ (filter is_online devs)); cbn [ret die snd] in Hc;
             congruence.
        -- now apply Hno3.
      * now apply Hno3.
  - repeat split; try discriminate.
    intros code H. now injection H as ->.
Qed.

(** X6. Recording runs its three commands in order and stops at the first
    that fails: when the recorder ends with a status other than zero, nothing
    is pulled; when the pull ends with a status other than zero, the command
    exits with code 1 and the temporary file on the device is not removed;
    when both succeed the file is removed and the command returns 0, whatever
    status the removal ends with.  The command never returns a status other
    than 0. *)
Theorem X6_cmd_record_steps :
  forall py (w : os) adb tr serial duration_arg bitrate remote_tmp out_path,
    dry_run adb = false ->
    let d := record_duration duration_arg in
    let rec_cmd :=
      _build adb (screenrecord_args d bitrate remote_tmp) (Some serial) in
    let pull_cmd := _build adb ["pull"; remote_tmp; out_path] (Some serial) in
    let rm_cmd := _build adb ["shell"; "rm"; "-f"; remote_tmp] (Some serial) in
    let r := cmd_record py w adb (tr, Return serial) duration_arg bitrate
                        remote_tmp out_path in
    (forall rc out err,
       w rec_cmd (d + 5)%Z = Completed rc out err -> rc <> 0%Z ->
       snd r = SystemExit 1 /\
       filter is_spawn (fst r) =
         (filter is_spawn tr ++ [SubprocessRun rec_cmd (d + 5)])%list) /\
    (forall out err rc2 out2 err2,
       w rec_cmd (d + 5)%Z = Completed 0 out err ->
       w pull_cmd (int_or None (timeout adb)) = Completed rc2 out2 err2 ->
       rc2 <> 0%Z ->
       snd r = SystemExit 1 /\
       filter is_spawn (fst r) =
         (filter is_spawn tr
          ++ [SubprocessRun rec_cmd (d + 5);
              SubprocessRun pull_cmd (int_or None (timeout adb))])%list) /\
    (forall out err out2 err2 rc3 out3 err3,
       w rec_cmd (d + 5)%Z = Completed 0 out err ->
       w pull_cmd (int_or None (timeout adb)) = Completed 0 out2 err2 ->
       w rm_cmd (int_or None (timeout adb)) = Completed rc3 out3 err3 ->
       snd r = Return 0%Z /\
       filter is_spawn (fst r) =
         (filter is_spawn tr
          ++ [SubprocessRun rec_cmd (d + 5);
              SubprocessRun pull_cmd (int_or None (timeout adb));
              SubprocessRun rm_cmd (int_or None (timeout adb))])%list) /\
    (forall v, snd r = Return v -> v = 0%Z).
Proof.
  intros py w adb tr serial duration_arg bitrate remote_tmp out_path Hdry
         d rec_cmd pull_cmd rm_cmd r.
  assert (Ht : int_or (Some (d + 5)%Z) (timeout adb) = (d + 5)%Z).
  { unfold int_or. destruct (d + 5 =? 0)%Z eqn:E; auto.
    apply Z.eqb_eq in E. unfold d, record_duration in E. lia. }
  assert (Hr : r =
    bind (tr, Return serial) (fun serial =>
      emit (PrintOut ("Запись экрана " ++ str_of_int d ++ " c...")) ;;
      '(rc, out, err) <-
        run py w adb (screenrecord_args d bitrate remote_tmp)
            (Some serial) true (Some (d + 5)%Z) false ;;
      if negb (rc =? 0)%Z then
        die 1 ("screenrecord вернул " ++ str_of_int rc ++ ": "
               ++ str_or (strip py err) (strip py out))
      else
        '(rc, out, err) <-
          run_default py w adb ["pull"; remote_tmp; out_path] (Some serial) ;;
        if negb (rc =? 0)%Z then
          die 1 ("Не удалось скачать видео: "
                 ++ str_or (strip py err) (strip py out))
        else
          run_default py w adb ["shell"; "rm"; "-f"; remote_tmp] (Some serial) ;;
          emit (PrintOut ("Видео сохранено: " ++ out_path)) ;;
          ret 0%Z)) by reflexivity.
  rewrite Hr. rewrite bind_return. cbn [fst snd]. bind_step.
  subst rec_cmd pull_cmd rm_cmd.
  split; [|split; [|split]].
  - intros rc out err Hw Hrc. rewrite <- Ht in Hw.
    rewrite (run_completed py w adb _ _ true _ Hdry Hw), bind_return.
    apply Z.eqb_neq in Hrc. rewrite Hrc, Ht. cbn [negb die fst snd].
    split; [reflexivity|].
    rewrite !filter_app. cbn [filter is_spawn app]. reflexivity.
  - intros out err rc2 out2 err2 Hw Hw2 Hrc. rewrite <- Ht in Hw.
    rewrite (run_completed py w adb _ _ true _ Hdry Hw), bind_return.
    cbn [Z.eqb negb]. unfold run_default.
    rewrite (run_completed py w adb _ _ true _ Hdry Hw2), bind_return.
    apply Z.eqb_neq in Hrc. rewrite Hrc, Ht. cbn [negb die fst snd].
    split; [reflexivity|].
    rewrite !filter_app. cbn [filter is_spawn app]. reflexivity.
  - intros out err out2 err2 rc3 out3 err3 Hw Hw2 Hw3. rewrite <- Ht in Hw.
    rewrite (run_completed py w adb _ _ true _ Hdry Hw), bind_return.
    cbn [Z.eqb negb]. unfold run_default.
    rewrite (run_completed py w adb _ _ true _ Hdry Hw2), bind_return.
    cbn [Z.eqb negb].
    rewrite (run_completed py w adb _ _ true _ Hdry Hw3), bind_return.
    rewrite Ht. cbn [bind emit ret fst snd app].
    split; [reflexivity|].
    rewrite !filter_app. cbn [filter is_spawn app]. reflexivity.
  - intros v.
    destruct (run py w adb (screenrecord_args d bitrate remote_tmp)
                  (Some serial) true (Some (d + 5)%Z) false)
      as [t1 [[[rc1 o1] e1]|c1]]; [|discriminate].
    rewrite bind_return. destruct (negb (rc1 =? 0)%Z); [discriminate|].
    destruct (run_default py w adb ["pull"; remote_tmp; out_path] (Some serial))
      as [t2 [[[rc2 o2] e2]|c2]]; [|discriminate].
    rewrite bind_return. destruct (negb (rc2 =? 0)%Z); [discriminate|].
    destruct (run_default py w adb ["shell"; "rm"; "-f"; remote_tmp]
                          (Some serial)) as [t3 [v3|c3]]; [|discriminate].
    rewrite bind_return. cbn [bind emit ret fst snd]. congruence.
Qed.

Lemma X6_cmd_record_steps_witness :
  snd (cmd_record (PyLib (fun s => s) (fun _ _ => ""))
         (fun cmd _ => if String.eqb (nth 3 cmd "") "pull"
                       then Completed 1 "" "remote object does not exist"
                       else Completed 0 "" "")
         {| _adb_path := "adb"; dry_run := false; timeout := 30 |}
         ([], Return "emulator-5554") None "4000000" "/sdcard/r.mp4" "out.mp4")
  = SystemExit 1 /\
  length (filter is_spawn
    (fst (cmd_record (PyLib (fun s => s) (fun _ _ => ""))
         (fun cmd _ => if String.eqb (nth 3 cmd "") "pull"
                       then Completed 1 "" "remote object does not exist"
                       else Completed 0 "" "")
         {| _adb_path := "adb"; dry_run := false; timeout := 30 |}
         ([], Return "emulator-5554") None "4000000" "/sdcard/r.mp4" "out.mp4")))
  = 2%nat.
Proof.
  pose proof (@X6_cmd_record_steps (PyLib (fun s => s) (fun _ _ => ""))
         (fun cmd _ => if String.eqb (nth 3 cmd "") "pull"
                       then Completed 1 "" "remote object does not exist"
                       else Completed 0 "" "")
         {| _adb_path := "adb"; dry_run := false; timeout := 30 |}
         [] "emulator-5554" None "4000000" "/sdcard/r.mp4" "out.mp4" eq_refl)
    as H.
  cbv zeta in H. destruct H as (_ & H & _).
  destruct (H "" "" 1%Z "" "remote object does not exist" eq_refl eq_refl)
    as [H1 H2]; [discriminate|].
  rewrite H1, H2. split; reflexivity.
Defined.

(** * The application, network and screenshot commands *)

(** The loop of [grant-perms] when every grant process completes. *)
Lemma grant_loop_completed py (w : os) adb package serial
      (status : string -> Z) :
  dry_run adb = false ->
  forall perms rc_total,
    (forall p, In p perms ->
       exists out err,
         w (grant_cmd adb package serial p) (int_or None (timeout adb))
           = Completed (status p) out err) ->
    snd (grant_loop py w adb package serial perms rc_total)
      = Return (last_failure status perms rc_total) /\
    filter is_spawn (fst (grant_loop py w adb package serial perms rc_total))
      = map (fun p => SubprocessRun (grant_cmd adb package serial p)
                                    (int_or None (timeout adb))) perms.
Proof.
  intros Hdry. induction perms as [|p perms IH]; intros rc_total Hall.
  - split; reflexivity.
  - destruct (Hall p (or_introl eq_refl)) as (out & err & Hw).
    cbn [grant_loop]. unfold run_default, grant_cmd in *.
    rewrite (run_completed py w adb _ _ true _ Hdry Hw), bind_return.
    cbn [fst snd last_failure fold_left map].
    assert (Hall' : forall q, In q perms ->
       exists out err,
         w (_build adb ["shell"; "pm"; "grant"; package; q] (Some serial))
           (int_or None (timeout adb)) = Completed (status q) out err)
      by (intros q Hq; apply Hall; now right).
    destruct (status p =? 0)%Z; cbn [negb]; unfold emit;
      rewrite bind_return; cbn [fst snd];
      rewrite !filter_app; cbn [filter is_spawn app];
      [destruct (IH rc_total Hall') as [H1 H2]
      |destruct (IH (status p) Hall') as [H1 H2]];
      rewrite H1, H2; split; reflexivity.
Qed.

Lemma last_failure_all_zero status : forall perms rc_total,
  Forall (fun p => status p = 0%Z) perms ->
  last_failure status perms rc_total = rc_total.
Proof.
  induction perms as [|p perms IH]; intros rc_total H; [reflexivity|].
  inversion H as [|? ? Hp Hrest]; subst. cbn [last_failure fold_left].
  rewrite Hp. cbn [Z.eqb]. now apply IH.
Qed.

Lemma last_failure_nonzero status : forall perms rc_total,
  rc_total <> 0%Z -> last_failure status perms rc_total <> 0%Z.
Proof.
  induction perms as [|p perms IH]; intros rc_total H; [exact H|].
  cbn [last_failure fold_left]. destruct (status p =? 0)%Z eqn:E.
  - now apply IH.
  - apply IH. now apply Z.eqb_neq.
Qed.

Lemma last_failure_zero_iff status : forall perms rc_total,
  last_failure status perms rc_total = 0%Z <->
  rc_total = 0%Z /\ Forall (fun p => status p = 0%Z) perms.
Proof.
  induction perms as [|p perms IH]; intros rc_total.
  - cbn. split; [intros ->; split; auto | tauto].
  - cbn [last_failure fold_left]. destruct (status p =? 0)%Z eqn:E.
    + apply Z.eqb_eq in E. fold (last_failure status perms rc_total).
      rewrite IH. split.
      * intros [H1 H2]. split; auto.
      * intros [H1 H2]. inversion H2; subst. tauto.
    + apply Z.eqb_neq in E. fold (last_failure status perms (status p)). split.
      * intros H. now apply last_failure_nonzero in H.
      * intros [_ H]. inversion H; subst. contradiction.
Qed.

Lemma last_failure_app status pre post rc_total :
  last_failure status (pre ++ post) rc_total =
  last_failure status post (last_failure status pre rc_total).
Proof. unfold last_failure. apply fold_left_app. Qed.

(** X7. Granting permissions runs one grant per permission, in order, and
    goes on after a grant that failed.  When every grant process completes,
    the command returns 0 exactly when every grant ended with status 0, and
    otherwise the status of the last grant that failed. *)
Theorem X7_grant_perms_status :
  forall py (w : os) adb tr serial a info (status : string -> Z),
    dry_run adb = false ->
    truthy (app_package a) = true ->
    app_perms a <> [] ->
    (forall p, In p (app_perms a) ->
       exists out err,
         w (grant_cmd adb (opt_text (app_package a)) serial p)
           (int_or None (timeout adb)) = Completed (status p) out err) ->
    let r := cmd_app py w adb (tr, Return serial) "grant-perms" a info in
    snd r = Return (last_failure status (app_perms a) 0) /\
    filter is_spawn (fst r) =
      (filter is_spawn tr
       ++ map (fun p => SubprocessRun
                          (grant_cmd adb (opt_text (app_package a)) serial p)
                          (int_or None (timeout adb)))
              (app_perms a))%list /\
    (last_failure status (app_perms a) 0 = 0%Z <->
     Forall (fun p => status p = 0%Z) (app_perms a)) /\
    (forall before p after,
       app_perms a = (before ++ p :: after)%list ->
       status p <> 0%Z -> Forall (fun q => status q = 0%Z) after ->
       last_failure status (app_perms a) 0 = status p).
Proof.
  intros py w adb tr serial a info status Hdry Hpkg Hperms Hall r.
  destruct (@grant_loop_completed py w adb (opt_text (app_package a)) serial
              status Hdry (app_perms a) 0%Z Hall) as [H1 H2].
  assert (Hr : r = bind (tr, Return serial) (fun serial =>
            grant_loop py w adb (opt_text (app_package a)) serial
                       (app_perms a) 0)).
  { unfold r, cmd_app. cbn [String.eqb Ascii.eqb Bool.eqb andb].
    rewrite Hpkg. destruct (app_perms a); [congruence|]. cbn [andb negb].
    rewrite !bind_return. cbn [ret fst snd app]. reflexivity. }
  rewrite Hr, bind_return. cbn [fst snd]. rewrite filter_app, H1, H2.
  repeat split.
  - intros H. now apply last_failure_zero_iff in H.
  - intros H. now apply last_failure_zero_iff.
  - intros pre p post Heq Hp Hpost. rewrite Heq, last_failure_app.
    cbn [last_failure fold_left]. apply Z.eqb_neq in Hp. rewrite Hp.
    now apply last_failure_all_zero.
Qed.

Lemma X7_grant_perms_witness :
  snd (cmd_app (PyLib (fun s => s) (fun _ _ => ""))
         (fun cmd _ => if String.eqb (nth 7 cmd "") "android.permission.CAMERA"
                       then Completed 255 "" "not a changeable permission"
                       else Completed 0 "" "")
         {| _adb_path := "adb"; dry_run := false; timeout := 30 |}
         ([], Return "emulator-5554") "grant-perms"
         {| app_package := Some "com.example"; app_activity := None;
            app_action := None; app_data := None; app_extra := [];
            app_perms := ["android.permission.CAMERA";
                          "android.permission.RECORD_AUDIO"] |}
         (fun _ => ret 0%Z))
  = Return 255%Z.
Proof.
  pose proof (@X7_grant_perms_status (PyLib (fun s => s) (fun _ _ => ""))
         (fun cmd _ => if String.eqb (nth 7 cmd "") "android.permission.CAMERA"
                       then Completed 255 "" "not a changeable permission"
                       else Completed 0 "" "")
         {| _adb_path := "adb"; dry_run := false; timeout := 30 |}
         [] "emulator-5554"
         {| app_package := Some "com.example"; app_activity := None;
            app_action := None; app_data := None; app_extra := [];
            app_perms := ["android.permission.CAMERA";
                          "android.permission.RECORD_AUDIO"] |}
         (fun _ => ret 0%Z)
         (fun p => if String.eqb p "android.permission.CAMERA"
                   then 255%Z else 0%Z)
         eq_refl eq_refl) as H.
  cbv zeta in H. cbn [app_perms app_package opt_text] in H.
  assert (Hne : ["android.permission.CAMERA"; "android.permission.RECORD_AUDIO"]
                <> []) by discriminate.
  specialize (H Hne).
  assert (Hall : forall p,
    In p ["android.permission.CAMERA"; "android.permission.RECORD_AUDIO"] ->
    exists out err,
      (fun (cmd : list string) (_ : Z) =>
         if String.eqb (nth 7 cmd "") "android.permission.CAMERA"
         then Completed 255 "" "not a changeable permission"
         else Completed 0 "" "")
        (grant_cmd {| _adb_path := "adb"; dry_run := false; timeout := 30 |}
                   "com.example" "emulator-5554" p)
        (int_or None
           (timeout {| _adb_path := "adb"; dry_run := false; timeout := 30 |}))
      = Completed (if String.eqb p "android.permission.CAMERA"
                   then 255%Z else 0%Z) out err).
  { intros p [<-|[<-|[]]]; eexists _, _; reflexivity. }
  destruct (H Hall) as [H1 _]. rewrite H1. reflexivity.
Defined.






(** X10. Uninstalling checks its package argument before it selects a
    device: without a package it exits with code 4 and asks for no device.
    Pulling and pushing select the device first, so a failed selection wins
    over a missing argument.  With their arguments given and the process
    completed, the three commands return the status of the process, whatever
    it is; a pull without an output path goes to the current directory. *)
Theorem X10_transfer_commands :
  forall py (w : os) adb (pick_device : prog string),
    (forall package keep_data,
       truthy package = false ->
       cmd_uninstall py w adb pick_device package keep_data
         = die 4 "--package обязателен.") /\
    (forall code (a b : option string),
       snd pick_device = SystemExit code ->
       cmd_pull py w adb pick_device a b = (fst pick_device, SystemExit code) /\
       cmd_push py w adb pick_device a b = (fst pick_device, SystemExit code)) /\
    (forall serial remote out_arg,
       snd pick_device = Return serial -> truthy remote = false ->
       snd (cmd_pull py w adb pick_device remote out_arg) = SystemExit 4 /\
       filter is_spawn (fst (cmd_pull py w adb pick_device remote out_arg))
         = filter is_spawn (fst pick_device)) /\
    (forall serial package (keep_data : bool) rc out err,
       snd pick_device = Return serial -> dry_run adb = false ->
       truthy package = true ->
       w (_build adb (["uninstall"] ++ (if keep_data then ["-k"] else [])
                      ++ [opt_text package])%list (Some serial))
         (int_or None (timeout adb)) = Completed rc out err ->
       snd (cmd_uninstall py w adb pick_device package keep_data)
         = Return rc) /\
    (forall serial remote out_arg rc out err,
       snd pick_device = Return serial -> dry_run adb = false ->
       truthy remote = true ->
       w (_build adb ["pull"; opt_text remote;
                      if truthy out_arg then opt_text out_arg else "."]
                 (Some serial))
         (int_or None (timeout adb)) = Completed rc out err ->
       snd (cmd_pull py w adb pick_device remote out_arg) = Return rc) /\
    (forall serial src remote rc out err,
       snd pick_device = Return serial -> dry_run adb = false ->
       truthy src = true -> truthy remote = true ->
       w (_build adb ["push"; opt_text src; opt_text remote] (Some serial))
         (int_or None (timeout adb)) = Completed rc out err ->
       snd (cmd_push py w adb pick_device src remote) = Return rc).
Proof.
  intros py w adb [tr res].
  split.
  { intros package keep_data Hp. unfold cmd_uninstall. rewrite Hp. reflexivity. }
  split.
  { intros code a b Hc. cbn [snd] in Hc. subst res. split; reflexivity. }
  split.
  { intros serial remote out_arg Hs Hr. cbn [snd] in Hs. subst res.
    unfold cmd_pull. rewrite bind_return, Hr. cbn [die bind fst snd].
    rewrite filter_app. cbn [filter is_spawn]. now rewrite app_nil_r. }
  split.
  { intros serial package keep_data rc out err Hs Hdry Hp Hw.
    cbn [snd] in Hs. subst res. unfold cmd_uninstall. rewrite Hp.
    unfold ret at 1. rewrite !bind_return. unfold run_default.
    rewrite (run_completed py w adb _ _ true _ Hdry Hw), bind_return.
    reflexivity. }
  split.
  { intros serial remote out_arg rc out err Hs Hdry Hr Hw.
    cbn [snd] in Hs. subst res. unfold cmd_pull. rewrite bind_return, Hr.
    unfold ret at 1. rewrite bind_return. unfold run_default.
    rewrite (run_completed py w adb _ _ true _ Hdry Hw), bind_return.
    reflexivity. }
  intros serial src remote rc out err Hs Hdry H1 H2 Hw.
  cbn [snd] in Hs. subst res. unfold cmd_push. rewrite bind_return, H1, H2.
  cbn [andb]. unfold ret at 1. rewrite bind_return. unfold run_default.
  rewrite (run_completed py w adb _ _ true _ Hdry Hw), bind_return.
  reflexivity.
Qed.

Ltac shot_cases :=
  repeat match goal with
         | |- _ /\ _ => split
         | |- _ <-> _ => split
         | |- _ -> _ => intro
         | H : _ /\ _ |- _ => destruct H
         | H : exists _, _ |- _ => destruct H
         | H : Communicated _ _ _ = Communicated _ _ _ |- _ =>
             injection H as ? ? ?; subst
         end;
  try discriminate; try congruence; auto.

(** X11. A screenshot returns 0 only when the output file opens, the
    capture process ends with status 0, the picture is written and the file
    then has a size above zero; it exits with code 5 exactly when the wait
    for the process times out, and with code 1 in every other case: a file of
    size zero is reported as an empty picture, whatever the process put out.
    In dry-run mode it starts no process and returns 0. *)
Theorem X11_screenshot_outcomes :
  forall adb sw tr serial out_path,
    let r := cmd_screenshot adb sw (tr, Return serial) out_path in
    (snd r = Return 0%Z \/ snd r = SystemExit 1 \/ snd r = SystemExit 5) /\
    (if dry_run adb
     then snd r = Return 0%Z /\ filter is_spawn (fst r) = filter is_spawn tr
     else
       (snd r = Return 0%Z <->
        shot_open_error sw = None /\
        exists out err st_size,
          shot_result sw = Communicated 0 out err /\
          shot_saved sw = Saved st_size /\ (0 < st_size)%Z) /\
       (snd r = SystemExit 5 <->
        shot_open_error sw = None /\ shot_result sw = CommunicateTimeout) /\
       (forall out err st_size,
          shot_open_error sw = None ->
          shot_result sw = Communicated 0 out err ->
          shot_saved sw = Saved st_size -> (st_size <= 0)%Z ->
          snd r = SystemExit 1 /\
          In (LogError "Получен пустой скриншот.") (fst r))).
Proof.
  intros adb sw tr serial out_path r. unfold r, cmd_screenshot.
  rewrite bind_return. cbn [snd fst].
  destruct (dry_run adb).
  - cbn [bind emit ret fst snd app]. split; [auto|]. split; [reflexivity|].
    rewrite filter_app. cbn [filter is_spawn]. now rewrite app_nil_r.
  - unfold emit at 1. rewrite bind_return. cbn [snd fst].
    destruct (shot_open_error sw) as [e|];
      [cbn [die snd]; split; [auto|]; shot_cases|].
    unfold emit at 1. rewrite bind_return. cbn [snd fst].
    destruct (shot_result sw) as [e|rc out err| |e];
      try (unfold emit at 1; rewrite bind_return);
      try (cbn [die snd]; split; [auto|]; shot_cases; fail).
    cbn [snd fst]. destruct (rc =? 0)%Z eqn:Erc; cbn [negb].
    + apply Z.eqb_eq in Erc. subst rc.
      destruct (shot_saved sw) as [size|e].
      * destruct (size <=? 0)%Z eqn:El.
        -- apply Z.leb_le in El.
           cbn [die snd fst]. split; [auto|]. shot_cases.
           ++ match goal with
              | H : Saved _ = Saved _ |- _ => injection H as ->
              end. lia.
           ++ apply in_or_app. right. cbn [bind emit die fst snd app].
              do 3 right. now left.
        -- apply Z.leb_gt in El.
           cbn [bind emit ret fst snd]. split; [auto|]. shot_cases.
           ++ exists out, err, size. auto.
           ++ match goal with
              | H : Saved _ = Saved _ |- _ => injection H as ->
              end. lia.
           ++ match goal with
              | H : Saved _ = Saved _ |- _ => injection H as ->
              end. lia.
      * cbn [die snd fst]. split; [auto|]. shot_cases.
    + apply Z.eqb_neq in Erc. cbn [die snd]. split; [auto|]. shot_cases.
Qed.

(** * Listing the devices *)

Lemma pick_no_devices tr preferred :
  snd (pick (tr, Return []) preferred) = SystemExit 3 /\
  filter is_spawn (fst (pick (tr, Return []) preferred)) = filter is_spawn tr.
Proof.
  unfold pick. rewrite bind_return. cbn [filter find snd fst].
  destruct preferred as [p|]; [destruct (truthy (Some p))|];
    cbn [die fst snd]; rewrite filter_app; cbn [filter is_spawn];
    now rewrite app_nil_r.
Qed.

Lemma list_devices_dry_run py px (w : os) adb :
  dry_run adb = true ->
  list_devices py px w adb =
    ([LogDebug ("ADB CMD: " ++ join " " (_build adb ["devices"; "-l"] None));
      PrintOut ("[DRY-RUN] " ++ join " " (_build adb ["devices"; "-l"] None))],
     Return []).
Proof.
  intros Hdry. unfold list_devices, run_default, run. rewrite Hdry.
  reflexivity.
Qed.

(** X14. In dry-run mode the device list is never asked for: the listing
    prints the command it would run and yields no device.  Device selection
    then exits with code 3 whether or not a serial is given, and so do the
    commands that select a device first, before any of them reaches its own
    dry-run branch; [devices] prints the line for an empty table and
    returns 0. *)
Theorem X14_dry_run_finds_no_device :
  forall py px (w : os) adb,
    dry_run adb = true ->
    let listing := list_devices py px w adb in
    listing =
      ([LogDebug ("ADB CMD: " ++ join " " (_build adb ["devices"; "-l"] None));
        PrintOut ("[DRY-RUN] " ++ join " " (_build adb ["devices"; "-l"] None))],
       Return []) /\
    (forall preferred,
       snd (pick listing preferred) = SystemExit 3 /\
       filter is_spawn (fst (pick listing preferred)) = []) /\
    (forall preferred cw clear since filter_arg duration_arg out_path,
       snd (cmd_logcat py w cw adb (pick listing preferred) clear since
                       filter_arg duration_arg out_path) = SystemExit 3) /\
    (forall preferred sw out_path,
       snd (cmd_screenshot adb sw (pick listing preferred) out_path)
         = SystemExit 3) /\
    (forall preferred duration_arg bitrate remote_tmp out_path,
       snd (cmd_record py w adb (pick listing preferred) duration_arg bitrate
                       remote_tmp out_path) = SystemExit 3) /\
    snd (cmd_devices py px w adb false) = Return 0%Z /\
    filter (fun e => match e with PrintOut _ => true | _ => false end)
           (fst (cmd_devices py px w adb false)) =
      [PrintOut ("[DRY-RUN] " ++ join " " (_build adb ["devices"; "-l"] None));
       PrintOut "(пусто)"].
Proof.
  intros py px w adb Hdry listing.
  pose proof (list_devices_dry_run py px w adb Hdry) as Hl.
  fold listing in Hl.
  assert (Hpick : forall preferred,
            exists tr, pick listing preferred = (tr, SystemExit 3) /\
                       filter is_spawn tr = []).
  { intros preferred. rewrite Hl.
    destruct (pick_no_devices
                [LogDebug ("ADB CMD: " ++ join " " (_build adb ["devices"; "-l"] None));
                 PrintOut ("[DRY-RUN] " ++ join " " (_build adb ["devices"; "-l"] None))]
                preferred) as [H1 H2].
    destruct (pick _ preferred) as [tr res]. cbn [fst snd] in *. subst res.
    exists tr. split; auto. }
  split; [exact Hl|].
  split.
  { intros preferred. destruct (Hpick preferred) as (tr & -> & Htr). auto. }
  split.
  { intros preferred cw clear since filter_arg d out_path.
    destruct (Hpick preferred) as (tr & -> & _). reflexivity. }
  split.
  { intros preferred sw out_path.
    destruct (Hpick preferred) as (tr & -> & _). reflexivity. }
  split.
  { intros preferred d bitrate remote_tmp out_path.
    destruct (Hpick preferred) as (tr & -> & _). reflexivity. }
  unfold cmd_devices. fold listing. rewrite Hl. split; reflexivity.
Qed.

Lemma X14_dry_run_witness :
  snd (cmd_logcat (PyLib (fun s => s) (fun _ _ => ""))
         (fun _ _ => Completed 0 "" "") world_interrupted
         {| _adb_path := "adb"; dry_run := true; timeout := 30 |}
         (pick (list_devices (PyLib (fun s => s) (fun _ _ => ""))
                  (PyExt (fun _ => "") (fun _ => false) (fun _ => ""))
                  (fun _ _ => Completed 0 "" "")
                  {| _adb_path := "adb"; dry_run := true; timeout := 30 |})
               (Some "emulator-5554"))
         false None [] None "out.log")
  = SystemExit 3.
Proof.
  pose proof (@X14_dry_run_finds_no_device
                (PyLib (fun s => s) (fun _ _ => ""))
                (PyExt (fun _ => "") (fun _ => false) (fun _ => ""))
                (fun _ _ => Completed 0 "" "")
                {| _adb_path := "adb"; dry_run := true; timeout := 30 |}
                eq_refl) as H.
  cbv zeta in H. destruct H as (_ & _ & H & _).
  exact (H (Some "emulator-5554") world_interrupted false None [] None
           "out.log").
Defined.

Lemma parse_devices_result px : forall lines,
  exists tr,
    parse_devices px lines =
      (tr, Return (flat_map (fun l =>
                      match parse_device_line (is_decimal px) l with
                      | Some d => [device_of_line d]
                      | None => []
                      end) lines)) /\
    filter is_spawn tr = [].
Proof.
  induction lines as [|l lines (tr & IH & Htr)].
  - exists []. split; reflexivity.
  - cbn [parse_devices flat_map].
    destruct (parse_device_line (is_decimal px) l) as [d|].
    + rewrite IH, bind_return. cbn [ret fst snd app].
      exists (tr ++ [])%list. split; [reflexivity|].
      now rewrite app_nil_r.
    + unfold emit. rewrite bind_return, IH. cbn [fst snd app].
      exists (LogDebug ("Пропускаю строку devices: " ++ repr_text px l) :: tr).
      split; [reflexivity|]. exact Htr.
Qed.

Lemma add_versions_completed py (w : os) adb :
  dry_run adb = false ->
  (forall cmd t, exists rc out err, w cmd t = Completed rc out err) ->
  forall devs,
    exists tr devs',
      add_versions py w adb devs = (tr, Return devs') /\
      Forall2 same_device devs' devs /\
      Forall2 (fun d' d => is_online d = false -> d' = d) devs' devs /\
      filter is_spawn tr =
        flat_map (version_runs adb (int_or None (timeout adb))) devs.
Proof.
  intros Hdry Hall.
  induction devs as [|d devs (tr & devs' & IH & Hsame & Hoff & Htr)].
  - exists [], []. repeat split; constructor.
  - cbn [add_versions flat_map]. unfold version_runs at 1.
    destruct (String.eqb (state d) "device") eqn:Est; cbn [negb].
    + destruct (Hall (_build adb getprop_release (Some (serial d)))
                     (int_or None (timeout adb))) as (rc1 & o1 & e1 & H1).
      destruct (Hall (_build adb getprop_sdk (Some (serial d)))
                     (int_or None (timeout adb))) as (rc2 & o2 & e2 & H2).
      unfold run_default.
      rewrite (run_completed py w adb _ _ true _ Hdry H1), bind_return.
      rewrite (run_completed py w adb _ _ true _ Hdry H2), bind_return.
      cbn [ret fst snd app]. rewrite bind_return, IH, bind_return.
      cbn [ret fst snd].
      eexists _, _. split; [reflexivity|]. split; [|split].
      * constructor; [|exact Hsame]. repeat split.
      * constructor; [|exact Hoff]. unfold is_online. rewrite Est.
        discriminate.
      * rewrite !filter_app. cbn [filter is_spawn app]. rewrite Htr.
        unfold is_online. rewrite Est. cbn [app]. now rewrite app_nil_r.
    + unfold ret at 1. rewrite bind_return, IH, bind_return.
      cbn [ret fst snd app].
      eexists _, _. split; [reflexivity|]. split; [|split].
      * constructor; [|exact Hsame]. repeat split.
      * constructor; [|exact Hoff]. auto.
      * rewrite filter_app. cbn [filter]. rewrite Htr.
        unfold is_online. rewrite Est. cbn [app]. now rewrite app_nil_r.
Qed.

(** X15. Listing the devices outside dry-run mode: when [adb devices -l] ends
    with a status other than zero the listing exits with code 1.  When it
    ends with status 0 and every later process completes, the listing
    returns the devices of the accepted lines in the order of the output;
    blank lines, the heading and lines the pattern rejects yield no device.
    Only devices in state [device] are asked for their versions, with two
    commands each, and the other devices are returned as parsed. *)
Theorem X15_list_devices_listing :
  forall py px (w : os) adb,
    dry_run adb = false ->
    let t := int_or None (timeout adb) in
    let cmd := _build adb ["devices"; "-l"] None in
    (forall rc out err,
       w cmd t = Completed rc out err -> rc <> 0%Z ->
       snd (list_devices py px w adb) = SystemExit 1 /\
       filter is_spawn (fst (list_devices py px w adb))
         = [SubprocessRun cmd t]) /\
    (forall out err,
       w cmd t = Completed 0 out err ->
       (forall c t', exists rc o e, w c t' = Completed rc o e) ->
       exists devs,
         snd (list_devices py px w adb) = Return devs /\
         Forall2 same_device devs (parsed_devices px out) /\
         Forall2 (fun d' d => is_online d = false -> d' = d)
                 devs (parsed_devices px out) /\
         filter is_spawn (fst (list_devices py px w adb)) =
           (SubprocessRun cmd t
            :: flat_map (version_runs adb t) (parsed_devices px out))%list).
Proof.
  intros py px w adb Hdry t cmd. subst t cmd. split.
  - intros rc out err Hw Hrc. unfold list_devices, run_default.
    rewrite (run_completed py w adb _ _ true _ Hdry Hw), bind_return.
    apply Z.eqb_neq in Hrc. rewrite Hrc. cbn [negb die fst snd app].
    split; reflexivity.
  - intros out err Hw Hall. unfold list_devices, run_default.
    rewrite (run_completed py w adb _ _ true _ Hdry Hw), bind_return.
    cbn [Z.eqb negb].
    destruct (parse_devices_result px (device_lines (of_text out)))
      as (tr1 & Hp & Htr1).
    fold (parsed_devices px out) in Hp. rewrite Hp, bind_return.
    destruct (add_versions_completed py w adb Hdry Hall (parsed_devices px out))
      as (tr2 & devs & Ha & Hsame & Hoff & Htr2).
    rewrite Ha. cbn [fst snd]. exists devs.
    repeat split; auto.
    rewrite !filter_app. cbn [filter is_spawn app]. now rewrite Htr1, Htr2.
Qed.

Lemma X15_list_devices_witness :
  snd (list_devices (PyLib (fun s => s) (fun _ _ => ""))
         (PyExt (fun _ => "") (fun _ => false) (fun _ => ""))
         (fun _ _ => Completed 1 "" "cannot connect to daemon")
         {| _adb_path := "adb"; dry_run := false; timeout := 30 |})
  = SystemExit 1.
Proof.
  pose proof (@X15_list_devices_listing
                (PyLib (fun s => s) (fun _ _ => ""))
                (PyExt (fun _ => "") (fun _ => false) (fun _ => ""))
                (fun _ _ => Completed 1 "" "cannot connect to daemon")
                {| _adb_path := "adb"; dry_run := false; timeout := 30 |}
                eq_refl) as H.
  cbv zeta in H. destruct H as [H _].
  destruct (H 1%Z "" "cannot connect to daemon" eq_refl) as [H1 _];
    [discriminate | exact H1].
Defined.

(** * Before the capture *)

(** X17. Capturing logs outside dry-run mode: when the buffer is to be
    cleared first, the status of the clearing command is ignored and the
    capture goes on as without it, while a timeout of the clearing command
    ends the whole command with code 5 before the output file is opened.
    When the output file cannot be opened, or the process cannot be started,
    the capture exits with code 1; in the first case nothing was started. *)
Theorem X17_logcat_before_capture :
  forall py (w : os) cw adb tr serial since filter_arg duration_arg out_path,
    dry_run adb = false ->
    let clear_cmd := _build adb ["logcat"; "-c"] (Some serial) in
    let t := int_or None (timeout adb) in
    let capture := logcat_capture py cw adb (logcat_args since filter_arg)
                                  serial duration_arg out_path in
    let run_it clear := cmd_logcat py w cw adb (tr, Return serial) clear since
                                   filter_arg duration_arg out_path in
    run_it false = ((tr ++ fst capture)%list, snd capture) /\
    (forall rc out err,
       w clear_cmd t = Completed rc out err ->
       snd (run_it true) = snd capture /\
       filter is_spawn (fst (run_it true)) =
         (filter is_spawn tr ++ SubprocessRun clear_cmd t
          :: filter is_spawn (fst capture))%list) /\
    (w clear_cmd t = TimeoutExpired ->
       snd (run_it true) = SystemExit 5 /\
       filter is_open_file (fst (run_it true)) = filter is_open_file tr) /\
    (forall e, open_error cw = Some e ->
       snd capture = SystemExit 1 /\ filter is_spawn (fst capture) = []) /\
    (forall e, open_error cw = None -> popen_error cw = Some e ->
       snd capture = SystemExit 1 /\ filter is_spawn (fst capture) = []).
Proof.
  intros py w cw adb tr serial since filter_arg d out_path Hdry
         clear_cmd t capture run_it.
  subst clear_cmd t run_it.
  assert (Hfalse : cmd_logcat py w cw adb (tr, Return serial) false since
                     filter_arg d out_path
                   = ((tr ++ fst capture)%list, snd capture)).
  { unfold cmd_logcat. rewrite bind_return. cbn [fst snd].
    unfold ret at 1. rewrite bind_return, Hdry. reflexivity. }
  split; [exact Hfalse|].
  split.
  { intros rc out err Hw. unfold cmd_logcat. rewrite bind_return.
    cbn [fst snd]. unfold run_default.
    rewrite (run_completed py w adb _ _ true _ Hdry Hw), bind_return.
    cbn [ret fst snd app]. rewrite bind_return, Hdry. cbn [fst snd].
    fold (logcat_args since filter_arg). fold capture.
    split; [reflexivity|].
    rewrite !filter_app. cbn [filter is_spawn app]. reflexivity. }
  split.
  { intros Hw. unfold cmd_logcat. rewrite bind_return. cbn [fst snd].
    unfold run_default, run. rewrite Hdry, Hw.
    cbn [bind emit die ret fst snd app].
    split; [reflexivity|].
    rewrite filter_app. cbn [filter is_open_file]. now rewrite app_nil_r. }
  split.
  { intros e He. unfold capture, logcat_capture. rewrite He.
    split; reflexivity. }
  intros e Ho He. unfold capture, logcat_capture, popen. rewrite Ho, He.
  split; reflexivity.
Qed.

Lemma X17_logcat_witness :
  snd (cmd_logcat (PyLib (fun s => s) (fun _ _ => ""))
         (fun _ _ => TimeoutExpired) world_interrupted
         {| _adb_path := "adb"; dry_run := false; timeout := 30 |}
         ([], Return "emulator-5554") true None [] (Some 10%Z) "out.log")
  = SystemExit 5.
Proof.
  pose proof (@X17_logcat_before_capture
                (PyLib (fun s => s) (fun _ _ => ""))
                (fun _ _ => TimeoutExpired) world_interrupted
                {| _adb_path := "adb"; dry_run := false; timeout := 30 |}
                [] "emulator-5554" None [] (Some 10%Z) "out.log" eq_refl) as H.
  cbv zeta in H. destruct H as (_ & _ & H & _).
  exact (proj1 (H eq_refl)).
Defined.

(** * Configuration *)

Lemma text_or_nonempty x default :
  default <> "" -> text_or x default <> "".
Proof.
  intros Hd. unfold text_or. destruct x as [s|]; cbn [truthy opt_text]; auto.
  destruct (String.eqb s "") eqn:E; cbn [negb]; auto.
  now apply String.eqb_neq.
Qed.

(** X18. Whatever the environment and the configuration file hold, the
    loaded configuration has a positive default timeout and non-empty output
    directories; a positive timeout of the file wins over one of the
    environment, which wins over 30, and an unreadable file only adds a
    warning.  The timeout [main] gives the runner is never zero: it is the
    command line value when that is not zero and the configured one
    otherwise, and this is the timeout of every process that is run without
    one of its own. *)
Theorem X18_config_timeout :
  forall getenv int_of_text conf_path toml,
    let r := load getenv int_of_text conf_path toml in
    exists cfg,
      snd r = Return cfg /\
      (0 < default_timeout cfg)%Z /\
      output_dir_logs cfg <> "" /\ output_dir_screens cfg <> "" /\
      (forall data v, toml = TomlLoaded data ->
         t_default_timeout data = Some v -> (0 < v)%Z ->
         default_timeout cfg = v) /\
      (forall v, (forall data, toml = TomlLoaded data ->
                    t_default_timeout data = None) ->
         int_of_text (opt_text (getenv "ADBHELPER_DEFAULT_TIMEOUT")) = Some v ->
         (0 < v)%Z -> default_timeout cfg = v) /\
      (forall e, toml = TomlUnreadable e ->
         r = ([LogWarning ("Не удалось прочитать конфиг " ++ conf_path ++ ": "
                           ++ e)],
              snd (load getenv int_of_text conf_path TomlAbsent))) /\
      (forall timeout_arg,
         main_timeout timeout_arg cfg <> 0%Z /\
         main_timeout timeout_arg cfg =
           int_or timeout_arg (default_timeout cfg) /\
         forall adb_file dry,
           int_or None (timeout {| _adb_path := adb_file; dry_run := dry;
                                   timeout := main_timeout timeout_arg cfg |})
           = main_timeout timeout_arg cfg).
Proof.
  intros getenv int_of_text conf_path toml r.
  set (env_timeout :=
         match int_of_text (opt_text (getenv "ADBHELPER_DEFAULT_TIMEOUT")) with
         | Some v => if (0 <? v)%Z then v else DEFAULT_TIMEOUT
         | None => DEFAULT_TIMEOUT
         end).
  assert (Henv : (0 < env_timeout)%Z).
  { unfold env_timeout, DEFAULT_TIMEOUT.
    destruct (int_of_text _) as [v|]; [|lia].
    destruct (0 <? v)%Z eqn:E; [now apply Z.ltb_lt in E | lia]. }
  assert (Hmain : forall cfg timeout_arg, (0 < default_timeout cfg)%Z ->
            main_timeout timeout_arg cfg <> 0%Z /\
            main_timeout timeout_arg cfg =
              int_or timeout_arg (default_timeout cfg) /\
            forall adb_file dry,
              int_or None (timeout {| _adb_path := adb_file; dry_run := dry;
                                      timeout := main_timeout timeout_arg cfg |})
              = main_timeout timeout_arg cfg).
  { intros cfg timeout_arg Hpos. unfold main_timeout.
    assert (Hin : int_or (Some (default_timeout cfg)) DEFAULT_TIMEOUT
                  = default_timeout cfg).
    { cbn [int_or]. destruct (default_timeout cfg =? 0)%Z eqn:E; auto.
      apply Z.eqb_eq in E. lia. }
    rewrite Hin. repeat split; auto.
    destruct timeout_arg as [v|]; cbn [int_or]; [|lia].
    destruct (v =? 0)%Z eqn:E; [lia | now apply Z.eqb_neq in E]. }
  destruct toml as [|e|data]; unfold r, load; fold env_timeout.
  - eexists. split; [reflexivity|]. cbn [default_timeout output_dir_logs
                                         output_dir_screens].
    split; [exact Henv|].
    split; [apply text_or_nonempty; discriminate|].
    split; [apply text_or_nonempty; discriminate|].
    split; [discriminate|].
    split.
    { intros v _ Hv Hpos. unfold env_timeout. rewrite Hv.
      apply Z.ltb_lt in Hpos. now rewrite Hpos. }
    split; [discriminate|].
    intros timeout_arg. now apply Hmain.
  - eexists. split; [reflexivity|]. cbn [default_timeout output_dir_logs
                                         output_dir_screens].
    split; [exact Henv|].
    split; [apply text_or_nonempty; discriminate|].
    split; [apply text_or_nonempty; discriminate|].
    split; [discriminate|].
    split.
    { intros v _ Hv Hpos. unfold env_timeout. rewrite Hv.
      apply Z.ltb_lt in Hpos. now rewrite Hpos. }
    split; [intros e' He; injection He as <-; reflexivity|].
    intros timeout_arg. now apply Hmain.
  - eexists. split; [reflexivity|]. cbn [default_timeout output_dir_logs
                                         output_dir_screens].
    assert (Hpos : (0 < match t_default_timeout data with
                        | Some v => if (0 <? v)%Z then v else env_timeout
                        | None => env_timeout
                        end)%Z).
    { destruct (t_default_timeout data) as [v|]; [|exact Henv].
      destruct (0 <? v)%Z eqn:E; [now apply Z.ltb_lt in E | exact Henv]. }
    split; [exact Hpos|].
    split; [apply text_or_nonempty, text_or_nonempty; discriminate|].
    split; [apply text_or_nonempty, text_or_nonempty; discriminate|].
    split.
    { intros data' v Hd Hv Hv0. injection Hd as <-. rewrite Hv.
      apply Z.ltb_lt in Hv0. now rewrite Hv0. }
    split.
    { intros v Hnone Hv Hv0. rewrite (Hnone data eq_refl).
      unfold env_timeout. rewrite Hv. apply Z.ltb_lt in Hv0. now rewrite Hv0. }
    split; [discriminate|].
    intros timeout_arg. now apply Hmain.
Qed.

(** * Input, installation and screen settings *)




(** X20. Installing checks the file before anything else: when the APK is
    not there the command is the exit with code 4 and selects no device.
    Otherwise, when the process completes, it returns the status of the
    process; for status 0 it prints the success line and the output, and for
    any other status the output and, on standard error, the error text.  The
    flags are passed in the order [-r], [-d], [-g]. *)
Theorem X20_install :
  forall py (w : os) adb (pick_device : prog string) apk replace downgrade
         grant_all,
    cmd_install py w adb pick_device apk false replace downgrade grant_all
      = die 4 ("APK не найден: " ++ apk) /\
    install_flags replace downgrade grant_all =
      filter (fun f => String.eqb f "install"
                       || (replace && String.eqb f "-r")
                       || (downgrade && String.eqb f "-d")
                       || (grant_all && String.eqb f "-g"))
             ["install"; "-r"; "-d"; "-g"] /\
    (forall serial rc out err,
       snd pick_device = Return serial -> dry_run adb = false ->
       w (_build adb (install_flags replace downgrade grant_all ++ [apk])%list
                 (Some serial))
         (int_or None (timeout adb)) = Completed rc out err ->
       let r := cmd_install py w adb pick_device apk true replace downgrade
                            grant_all in
       snd r = Return rc /\
       filter is_spawn (fst r) =
         (filter is_spawn (fst pick_device)
          ++ [SubprocessRun
                (_build adb
                   (install_flags replace downgrade grant_all ++ [apk])%list
                   (Some serial))
                (int_or None (timeout adb))])%list /\
       exists before_run,
         fst r =
           (before_run
            ++ (if (rc =? 0)%Z
                then [PrintOut "Установка завершена."; PrintOut (strip py out)]
                else [PrintOut (strip py out); PrintErr (strip py err)]))%list).
Proof.
  intros py w adb pd apk replace downgrade grant_all.
  split; [reflexivity|].
  split; [destruct replace, downgrade, grant_all; reflexivity|].
  intros serial rc out err Hs Hdry Hw r. destruct pd as [tr res].
  cbn [snd] in Hs. subst res. unfold r, cmd_install.
  unfold ret at 1. rewrite !bind_return. unfold run_default.
  rewrite (run_completed py w adb _ _ true _ Hdry Hw), bind_return.
  cbn [fst snd app].
  destruct (rc =? 0)%Z; cbn [bind emit ret fst snd app];
    (split; [reflexivity|]);
    (split; [rewrite filter_app; reflexivity|]);
    eexists (tr ++ [_; _])%list; rewrite <- app_assoc; reflexivity.
Qed.


Close Scope string_scope.

